(** * liquidations-chart: synchronisation and daily aggregation

    A shallow embedding of [src/data.py] and [src/summary.py].

    Conventions of the model.
    - [summarize_liquidations] is given twice.  The first reading takes a
      [float64] cell for a rational extended with the two infinities and
      NaN ([float]): division by zero follows IEEE 754 (no exception,
      [0/0 = NaN], [x/0 = ±inf]), arithmetic on finite values is exact.  It
      carries the statements on the shape of the table (which lines, which
      columns, which exceptions, which order), whose proofs use no law of
      arithmetic.  The second reading, module [B64], computes in binary64
      with the compensated sum of pandas; it carries the statements that
      depend on how sums and quotients are rounded.
    - Exceptions are values: a function that can raise returns a [result].
    - The table [summarize_liquidations] writes to
      [liquidation_summary.csv] is the list of rows it returns here.
    - A text is a [string] of ASCII characters. *)

From Stdlib Require Import QArith Qcanon Strings.Ascii Strings.String.
From Stdlib Require Import Floats.SpecFloat.
From stdpp Require Import base decidable option list list_monad numbers
  strings sorting gmap.

Local Open Scope Z_scope.

(** ** Exceptions *)

Inductive exn :=
  | ValueError_no_objects          (* pd.concat([]) *)
  | ValueError_year_out_of_range   (* datetime.utcfromtimestamp *)
  | ValueError_strptime            (* datetime.strptime *)
  | OverflowError                  (* datetime.utcfromtimestamp: beyond time_t *)
  | OSError_EOVERFLOW              (* datetime.utcfromtimestamp: gmtime gives up *)
  | KeyError (column : string)     (* DataFrame.__getitem__ *)
  | OutOfBoundsDatetime            (* pd.to_datetime *)
  | ConnectionError                (* requests: no response at all *)
  | HTTPError (status : Z)         (* requests: raise_for_status *)
  | BadZipFile                     (* zipfile *)
  | zlib_error                     (* zlib, raised through zipfile *)
  | RuntimeError                   (* zipfile: the member is encrypted *)
  | NotImplementedError.           (* zipfile: compression method not supported *)

(** [requests.RequestException] is the base class of the two exceptions of
    [requests]. *)
Definition is_RequestException (e : exn) : bool :=
  match e with
  | ConnectionError | HTTPError _ => true
  | _ => false
  end.

Inductive result (A : Type) :=
  | Ok (x : A)
  | Raise (e : exn).
Arguments Ok {A} x.
Arguments Raise {A} e.

Global Instance exn_eq_dec : EqDecision exn.
Proof. solve_decision. Defined.

Global Instance result_eq_dec {A} `{EqDecision A} : EqDecision (result A).
Proof. solve_decision. Defined.

Global Instance result_ret : MRet result := @Ok.
Global Instance result_bind : MBind result := fun A B f m =>
  match m with
  | Ok x => f x
  | Raise e => Raise e
  end.
Global Instance result_fmap : FMap result := fun A B f m =>
  match m with
  | Ok x => Ok (f x)
  | Raise e => Raise e
  end.

(** ** [float64] cells *)

Inductive float :=
  | Fin (q : Qc)
  | PInf
  | NInf
  | NaN.

Global Instance float_eq_dec : EqDecision float.
Proof. solve_decision. Defined.

Definition inf_of_sign (c : comparison) : float :=
  match c with
  | Lt => NInf
  | Gt => PInf
  | Eq => NaN
  end.

Definition fsign (x : float) : comparison :=
  match x with
  | Fin q => (q ?= 0)%Qc
  | PInf => Gt
  | NInf => Lt
  | NaN => Eq
  end.

Definition sign_mul (a b : comparison) : comparison :=
  match a, b with
  | Eq, _ | _, Eq => Eq
  | Lt, Lt | Gt, Gt => Gt
  | _, _ => Lt
  end.

Definition fadd (x y : float) : float :=
  match x, y with
  | NaN, _ | _, NaN => NaN
  | Fin a, Fin b => Fin (a + b)%Qc
  | PInf, NInf | NInf, PInf => NaN
  | PInf, _ | _, PInf => PInf
  | NInf, _ | _, NInf => NInf
  end.

Definition fmul (x y : float) : float :=
  match x, y with
  | NaN, _ | _, NaN => NaN
  | Fin a, Fin b => Fin (a * b)%Qc
  | _, _ => inf_of_sign (sign_mul (fsign x) (fsign y))
  end.

(** A zero divisor counts as [+0]: [x / 0] takes the sign of [x]. *)
Definition fdiv (x y : float) : float :=
  match x, y with
  | NaN, _ | _, NaN => NaN
  | Fin a, Fin b =>
      if decide (b = 0%Qc) then inf_of_sign (a ?= 0)%Qc else Fin (a / b)%Qc
  | Fin _, _ => Fin 0%Qc
  | _, Fin b =>
      if decide (b = 0%Qc) then x else inf_of_sign (sign_mul (fsign x) (fsign y))
  | _, _ => NaN
  end.

Definition isna (x : float) : bool :=
  match x with
  | NaN => true
  | _ => false
  end.

(** [fillna(0)] on one cell of a pivoted frame: a cell that is missing
    ([None]) or holds NaN becomes 0. *)
Definition fillna0 (c : option float) : float :=
  match c with
  | Some x => if isna x then Fin 0%Qc else x
  | None => Fin 0%Qc
  end.

(** ** Calendar dates *)

(** The civil date of a day number counted from 1970-01-01 (proleptic
    Gregorian calendar), as [datetime] computes it. *)
Definition civil_from_days (z : Z) : Z * Z * Z :=
  let z := z + 719468 in
  let era := z / 146097 in
  let doe := z - era * 146097 in
  let yoe := (doe - doe / 1460 + doe / 36524 - doe / 146096) / 365 in
  let doy := doe - (365 * yoe + yoe / 4 - yoe / 100) in
  let mp := (5 * doy + 2) / 153 in
  let d := doy - (153 * mp + 2) / 5 + 1 in
  let m := if mp <? 10 then mp + 3 else mp - 9 in
  let y := yoe + era * 400 + (if m <=? 2 then 1 else 0) in
  (y, m, d).

Definition digit (n : Z) : ascii :=
  ascii_of_nat (48 + Z.to_nat (n mod 10)).

Definition pad2 (n : Z) : string :=
  String (digit (n / 10)) (String (digit n) EmptyString).

Definition pad4 (n : Z) : string :=
  String (digit (n / 1000)) (String (digit (n / 100)) (pad2 n)).

(** [%Y] as the C library of Linux writes it: the year of a [datetime]
    (1 to 9999) in decimal, without zeros in front. *)
Definition year_text (y : Z) : string :=
  if y <? 10 then String (digit y) EmptyString
  else if y <? 100 then pad2 y
  else if y <? 1000 then String (digit (y / 100)) (pad2 y)
  else pad4 y.

(** [strftime("%Y-%m-%d")] of the date with day number [days]. *)
Definition strftime_Ymd (days : Z) : string :=
  let '(y, m, d) := civil_from_days days in
  year_text y +:+ "-" +:+ pad2 m +:+ "-" +:+ pad2 d.

(** [datetime.utcfromtimestamp(timestamp / 1000).strftime("%Y-%m-%d")] for a
    timestamp in milliseconds.  [utcfromtimestamp] raises [OverflowError]
    when the seconds do not fit the 64 bits of [time_t], [OSError] when
    [gmtime] cannot hold the year in the 32 bits of [tm_year], and
    [ValueError] when the year is outside 1 to 9999, the years of a
    [datetime].  The quotient [timestamp / 1000] is a float; for a timestamp
    of the [int64] column [time] its rounding moves no date and no limit, and
    the model divides exactly. *)
Definition convert_timestamp_to_date (timestamp : Z) : result string :=
  let seconds := timestamp / 1000 in
  if negb ((- 2 ^ 63 <=? seconds) && (seconds <? 2 ^ 63)) then Raise OverflowError
  else
    let days := timestamp / 86400000 in
    let '(y, _, _) := civil_from_days days in
    if negb ((- 2 ^ 31 <=? y - 1900) && (y - 1900 <? 2 ^ 31)) then Raise OSError_EOVERFLOW
    else if (1 <=? y) && (y <=? 9999) then Ok (strftime_Ymd days)
    else Raise ValueError_year_out_of_range.

(** [pd.to_datetime] of one date text of the index.  pandas keeps a
    timestamp as nanoseconds in 64 bits, which holds the midnights from
    1677-09-22 to 2262-04-11; it raises outside.  A text of fewer than ten
    characters is the date of a year before 1000 and is taken to be refused
    alike.  The model keeps the text. *)
Definition to_datetime (d : string) : result string :=
  if (String.length d =? 10)%nat && String.leb "1677-09-22" d && String.leb d "2262-04-11"
  then Ok d
  else Raise OutOfBoundsDatetime.

(** ** Raw liquidation records *)

Inductive Side := BUY | SELL.

Global Instance Side_eq_dec : EqDecision Side.
Proof. solve_decision. Defined.

(** The text of the [side] column; pandas orders group keys by it. *)
Definition side_name (s : Side) : string :=
  match s with
  | BUY => "BUY"
  | SELL => "SELL"
  end.

(** One line of a daily CSV file.  [other_columns] stands for the columns
    the summary never reads (order type, time in force, price, status, fill
    quantities); they take part in [drop_duplicates] only. *)
Record raw_event := {
  time : Z;
  side : Side;
  original_quantity : Qc;
  average_price : Qc;
  other_columns : list string;
}.

Global Instance raw_event_eq_dec : EqDecision raw_event.
Proof. solve_decision. Defined.

(** The column [time] holds 64-bit integers. *)
Definition int64 (z : Z) : Prop := - 2 ^ 63 ≤ z < 2 ^ 63.

(** [all_data] once the [date] and [volume] columns are added. *)
Record event := {
  raw : raw_event;
  date : string;
  volume : Qc;
}.

(** One line of [summary], the frame [groupby(["date", "side"]).agg] gives. *)
Record group := {
  g_date : string;
  g_side : Side;
  total_volume : Qc;
  total_liquidations : Qc;
}.

(** One line of the table written to [liquidation_summary.csv]. *)
Record row := {
  row_date : string;
  Shorts : float;
  Longs : float;
  price : float;
}.

Global Instance row_eq_dec : EqDecision row.
Proof. solve_decision. Defined.

(** ** [DataFrame.drop_duplicates] (keep="first") *)

Section drop_duplicates.
Context {A : Type} `{EqDecision A}.

(** [seen] holds the lines already kept. *)
Fixpoint drop_duplicates_from (seen l : list A) : list A :=
  match l with
  | [] => []
  | x :: l' =>
      if decide (x ∈ seen) then drop_duplicates_from seen l'
      else x :: drop_duplicates_from (x :: seen) l'
  end.

Definition drop_duplicates (l : list A) : list A :=
  drop_duplicates_from [] l.
End drop_duplicates.

(** ** Order of group keys *)

Definition side_le (a b : Side) : Prop := String.le (side_name a) (side_name b).

(** Keys [(date, side)] compare lexicographically, each part as text. *)
Definition key_le (k1 k2 : string * Side) : Prop :=
  if decide (k1.1 = k2.1) then side_le k1.2 k2.2 else String.le k1.1 k2.1.

Global Instance side_le_dec : RelDecision side_le.
Proof. intros a b. unfold side_le. apply _. Defined.

Global Instance key_le_dec : RelDecision key_le.
Proof. intros k1 k2. unfold key_le. destruct (decide (k1.1 = k2.1)); apply _. Defined.

(** The strict order of date texts, as a test. *)
Definition date_lt (a b : string) : Prop := String.ltb a b = true.

(** ** The aggregation *)

Definition Qc_sum (l : list Qc) : Qc := foldr Qcplus 0%Qc l.

Definition add_columns (r : raw_event) : result event :=
  d ← convert_timestamp_to_date (time r);
  mret {| raw := r; date := d;
          volume := (original_quantity r * average_price r)%Qc |}.

Definition group_key (e : event) : string * Side := (date e, side (raw e)).

(** The distinct values of a key column in ascending order. *)
Definition sorted_unique {K : Type} `{EqDecision K} (le : relation K)
    `{!RelDecision le} (l : list K) : list K :=
  merge_sort le (remove_dups l).

(** [groupby(["date", "side"]).agg(total_volume=("volume", "sum"),
    total_liquidations=("original_quantity", "sum")).reset_index()] *)
Definition agg_group (data : list event) (k : string * Side) : group :=
  let members := filter (fun e => group_key e = k) data in
  {| g_date := k.1; g_side := k.2;
     total_volume := Qc_sum (volume <$> members);
     total_liquidations := Qc_sum ((original_quantity ∘ raw) <$> members) |}.

Definition groupby_agg (data : list event) : list group :=
  agg_group data <$> sorted_unique key_le (group_key <$> data).

(** [summary["average_price"] = summary["total_volume"] /
    summary["total_liquidations"]] *)
Definition summary_average_price (g : group) : float :=
  fdiv (Fin (total_volume g)) (Fin (total_liquidations g)).

(** The pivot: its index is the sorted distinct dates, a side is a column
    when some line of [summary] has it, and a cell is the line of that date
    and side when there is one. *)
Definition pivot_index (summary : list group) : list string :=
  sorted_unique String.le (g_date <$> summary).

Definition pivot_has_column (summary : list group) (s : Side) : bool :=
  bool_decide (s ∈ g_side <$> summary).

Definition pivot_cell (summary : list group) (d : string) (s : Side) : option group :=
  head (filter (fun g => g_date g = d ∧ g_side g = s) summary).

(** Lines 47-81 for one date of the index, after [fillna(0)]. *)
Definition pivot_row (summary : list group) (d : string) : row :=
  let buy_volume := fillna0 (Fin ∘ total_volume <$> pivot_cell summary d BUY) in
  let sell_volume := fillna0 (Fin ∘ total_volume <$> pivot_cell summary d SELL) in
  let buy_price := fillna0 (summary_average_price <$> pivot_cell summary d BUY) in
  let sell_price := fillna0 (summary_average_price <$> pivot_cell summary d SELL) in
  {| row_date := d;
     Shorts := buy_volume;
     Longs := sell_volume;
     price := fdiv (fadd (fmul buy_price buy_volume) (fmul sell_price sell_volume))
                   (fadd buy_volume sell_volume) |}.

(** [files] are the contents of the CSV files [glob] finds, one list of
    lines per file. *)
Definition summarize_liquidations (files : list (list raw_event)) : result (list row) :=
  if decide (files = []) then Raise ValueError_no_objects
  else
    let all_data := drop_duplicates (concat files) in
    all_data ← mapM add_columns all_data;
    let summary := groupby_agg all_data in
    if negb (pivot_has_column summary BUY) then Raise (KeyError "Average Buy Price")
    else if negb (pivot_has_column summary SELL) then Raise (KeyError "Average Sell Price")
    else
      index ← mapM to_datetime (pivot_index summary);
      Ok (pivot_row summary <$> index).

(** ** What a line of the table stands for

    The quantities of a date read off the deduplicated lines directly.
    The theorems below compare the pipeline with them. *)

Definition deduplicated (files : list (list raw_event)) : list raw_event :=
  drop_duplicates (concat files).

Definition on_day (d : string) (s : Side) (r : raw_event) : Prop :=
  convert_timestamp_to_date (time r) = Ok d ∧ side r = s.

Global Instance on_day_dec d s r : Decision (on_day d s r).
Proof. unfold on_day. apply _. Defined.

Definition day_records (files : list (list raw_event)) (d : string) (s : Side) :
    list raw_event :=
  filter (on_day d s) (deduplicated files).

(** The value in USD of one liquidation. *)
Definition usd (r : raw_event) : Qc := (original_quantity r * average_price r)%Qc.

Definition day_volume files d s : Qc := Qc_sum (usd <$> day_records files d s).

Definition day_quantity files d s : Qc :=
  Qc_sum (original_quantity <$> day_records files d s).

(** The average price of a side on a date as the price formula reads it:
    volume over quantity, and 0 where that is NaN (no line, or quantity and
    volume both 0). *)
Definition day_average_price files d s : float :=
  fillna0 (Some (fdiv (Fin (day_volume files d s)) (Fin (day_quantity files d s)))).

Definition weighted_mean (buy_price buy_volume sell_price sell_volume : float) : float :=
  fdiv (fadd (fmul buy_price buy_volume) (fmul sell_price sell_volume))
       (fadd buy_volume sell_volume).

Definition day_row files (d : string) : row :=
  {| row_date := d;
     Shorts := Fin (day_volume files d BUY);
     Longs := Fin (day_volume files d SELL);
     price := weighted_mean (day_average_price files d BUY) (Fin (day_volume files d BUY))
                (day_average_price files d SELL) (Fin (day_volume files d SELL)) |}.

(** The dates some deduplicated line falls on. *)
Definition has_date (files : list (list raw_event)) (d : string) : Prop :=
  ∃ r, r ∈ deduplicated files ∧ convert_timestamp_to_date (time r) = Ok d.

Definition has_side (files : list (list raw_event)) (s : Side) : Prop :=
  ∃ r, r ∈ deduplicated files ∧ side r = s.

(** Every line falls on a date that [datetime] and pandas can hold. *)
Definition all_dated (files : list (list raw_event)) : Prop :=
  ∀ r, r ∈ deduplicated files →
       ∃ d, convert_timestamp_to_date (time r) = Ok d ∧ to_datetime d = Ok d.

Definition opposite (s : Side) : Side :=
  match s with
  | BUY => SELL
  | SELL => BUY
  end.

(** A line with whole numbers for quantity and price. *)
Definition liquidation (t : Z) (s : Side) (q p : Z) : raw_event :=
  {| time := t; side := s; original_quantity := Qc_of_Z q;
     average_price := Qc_of_Z p; other_columns := [] |}.

Definition table_row (d : string) (shorts longs : Z) (p : float) : row :=
  {| row_date := d; Shorts := Fin (Qc_of_Z shorts); Longs := Fin (Qc_of_Z longs);
     price := p |}.

(** * [data.py]: the remote listing, the local files, the downloads *)

(** ** Text *)

Definition endswith (s suffix : string) : bool :=
  String.prefix (String.rev suffix) (String.rev s).

(** [s.split(sep)] for a separator that is not empty: the pieces between
    the occurrences of [sep], found from left to right.  [skip] counts the
    characters of an occurrence still to pass, [piece] is the piece read
    so far. *)
Fixpoint split_from (sep : string) (skip : nat) (piece s : string) : list string :=
  match s with
  | EmptyString => [piece]
  | String c s' =>
      match skip with
      | S n => split_from sep n piece s'
      | O =>
          if String.prefix sep s
          then piece :: split_from sep (String.length sep - 1) EmptyString s'
          else split_from sep 0 (piece +:+ String c EmptyString) s'
      end
  end.

Definition split (sep s : string) : list string := split_from sep 0 EmptyString s.

(** [filename.split("liquidationSnapshot-")[-1].split(".")[0]] *)
Definition extract_date_from_filename (filename : string) : string :=
  default EmptyString
    (head (split "." (default EmptyString (last (split "liquidationSnapshot-" filename))))).

(** [os.path.join] of two components and [os.path.basename] (POSIX). *)
Definition path_join (a b : string) : string :=
  if String.prefix "/" b then b
  else if bool_decide (a = EmptyString) || endswith a "/" then a +:+ b
  else a +:+ "/" +:+ b.

Definition basename (path : string) : string :=
  default EmptyString (last (split "/" path)).

(** ** The remote store *)

(** One reply of the bucket listing: the keys it carries, and whether more
    keys are left for a further request. *)
Record ListBucketResult := {
  Contents : list string;
  IsTruncated : bool;
}.

(** A listing request without a marker answers with the first [max_keys]
    keys under the prefix; 1000 is the limit of the store. *)
Definition max_keys : nat := 1000.

Definition list_objects (keys : list string) : ListBucketResult :=
  {| Contents := take max_keys keys;
     IsTruncated := bool_decide (max_keys < length keys)%nat |}.

(** [keys] are the keys the store holds under the prefix of the symbol. *)
Definition get_existing_files (keys : list string) : list string :=
  filter (fun key => endswith key ".zip" = true) (Contents (list_objects keys)).

(** Why [ZipFile.open] refuses a member before any of it is read: it is
    encrypted and no password is given ([RuntimeError]), its compression
    method is not supported ([NotImplementedError]), or its local header is
    damaged ([BadZipFile]). *)
Inductive refusal :=
  | Encrypted
  | UnsupportedCompression
  | BadLocalHeader.

Definition refusal_exn (why : refusal) : exn :=
  match why with
  | Encrypted => RuntimeError
  | UnsupportedCompression => NotImplementedError
  | BadLocalHeader => BadZipFile
  end.

(** What an archive member gives when [zipfile] copies it out: its content,
    or a part of it followed by a failed CRC check ([BadZipFile]), or a part
    of it followed by a failure of the decompressor ([zlib.error]), or
    nothing when the member cannot be opened. *)
Inductive member_data :=
  | Intact (content : string)
  | BadCRC (written : string)
  | BadStream (written : string)
  | Unopened (why : refusal).

Record zip_member := {
  arcname : string;
  member : member_data;
}.

(** A payload is no archive at all, so that [zipfile.ZipFile] raises
    [BadZipFile] on opening it, or has a readable directory of members.
    Member names are plain file names. *)
Inductive payload :=
  | NotZip
  | Zip (members : list zip_member).

Inductive http_reply :=
  | Unreachable
  | Response (status : Z) (body : payload).

(** ** The local store *)

(** Files by directory and name.  A directory is known by the text of its
    path and is there as soon as a file is put into it: the store has no
    links, no [.] or [..], no permissions, and [os.makedirs] cannot fail. *)
Abbreviation filesystem := (gmap (string * string) string).

Inductive printed :=
  | Failed_to_download (url : string) (e : exn)
  | Failed_to_extract (url : string) (e : exn)
  | Error_occurred (e : exn).

Record world := {
  files : filesystem;
  stdout : list printed;
}.

(** [c in s] for one character. *)
Fixpoint has_char (c : ascii) (s : string) : bool :=
  match s with
  | EmptyString => false
  | String a s' => bool_decide (c = a) || has_char c s'
  end.

(** [glob.has_magic]: the text holds a character that [glob] reads as
    part of a pattern. *)
Definition has_magic (s : string) : bool :=
  has_char "*" s || has_char "?" s || has_char "[" s.

(** [glob.glob(os.path.join(dir, "*.csv"))] for a [dir] without magic: the
    files of [dir] whose name ends in [.csv] and does not start with a dot.
    (A [dir] with magic is a pattern for [glob] and stands for other
    directories; the statements that rest on the scan of one directory
    ask for [has_magic dir = false].) *)
Definition matches_csv (name : string) : bool :=
  endswith name ".csv" && negb (String.prefix "." name).

Definition glob_csv (fs : filesystem) (dir : string) : list string :=
  (fun k => path_join dir k.2)
  <$> filter (fun k => k.1 = dir ∧ matches_csv k.2 = true) (elements (dom fs)).

Definition get_local_dates (fs : filesystem) (base_path symbol market : string) :
    gset string :=
  let local_files := glob_csv fs (path_join (path_join base_path symbol) market) in
  list_to_set ((extract_date_from_filename ∘ basename) <$> local_files).

(** ** One download *)

Definition url_of (symbol date_str market : string) : string :=
  "https://data.binance.vision/data/futures/" +:+ market
  +:+ "/daily/liquidationSnapshot/" +:+ symbol +:+ "/" +:+ symbol
  +:+ "-liquidationSnapshot-" +:+ date_str +:+ ".zip".

(** [requests.get(url)] followed by [response.raise_for_status()]. *)
Definition get_checked (reply : http_reply) : result payload :=
  match reply with
  | Unreachable => Raise ConnectionError
  | Response status body =>
      if (400 <=? status) && (status <? 600) then Raise (HTTPError status)
      else Ok body
  end.

(** [ZipFile.extractall]: members are copied out one after the other, each
    straight to its final place; a member that fails while it is read has
    its file created and partly filled before the exception leaves, a
    member that cannot be opened has no file created. *)
Fixpoint extractall (members : list zip_member) (dir : string) (fs : filesystem) :
    result unit * filesystem :=
  match members with
  | [] => (Ok (), fs)
  | m :: rest =>
      match member m with
      | Intact content => extractall rest dir (<[(dir, arcname m) := content]> fs)
      | BadCRC written => (Raise BadZipFile, <[(dir, arcname m) := written]> fs)
      | BadStream written => (Raise zlib_error, <[(dir, arcname m) := written]> fs)
      | Unopened why => (Raise (refusal_exn why), fs)
      end
  end.

Definition unzip (body : payload) (dir : string) (fs : filesystem) :
    result unit * filesystem :=
  match body with
  | NotZip => (Raise BadZipFile, fs)
  | Zip members => extractall members dir fs
  end.

(** The body of the [try] block: the request, then the extraction. *)
Definition download_then_extract (reply : http_reply) (extract_to : string)
    (fs : filesystem) : result unit * filesystem :=
  match get_checked reply with
  | Raise e => (Raise e, fs)
  | Ok body => unzip body extract_to fs
  end.

(** [date] is the day number of the [datetime] argument; [remote] is what
    the server answers to a URL.  The three directories of lines 57-65 are
    there in the store without being made.  The function returns [None]
    ([Ok ()]) or lets an exception through: the two [except] clauses catch
    [requests.RequestException] and [zipfile.BadZipFile], nothing else. *)
Definition download_and_extract_zip (remote : string → http_reply)
    (symbol : string) (date : Z) (market base_extract_to : string) (w : world) :
    result unit * world :=
  let extract_to := path_join (path_join base_extract_to symbol) market in
  let date_str := strftime_Ymd date in
  let url := url_of symbol date_str market in
  match download_then_extract (remote url) extract_to (files w) with
  | (Ok _, fs) => (Ok (), {| files := fs; stdout := stdout w |})
  | (Raise e, fs) =>
      if is_RequestException e
      then (Ok (), {| files := fs; stdout := stdout w ++ [Failed_to_download url e] |})
      else if decide (e = BadZipFile)
      then (Ok (), {| files := fs; stdout := stdout w ++ [Failed_to_extract url e] |})
      else (Raise e, {| files := fs; stdout := stdout w |})
  end.

(** ** [datetime.strptime(date, "%Y-%m-%d")] *)

Definition is_digit (c : ascii) : bool :=
  (48 <=? nat_of_ascii c)%nat && (nat_of_ascii c <=? 57)%nat.

Definition digit_value (c : ascii) : Z := Z.of_nat (nat_of_ascii c) - 48.

(** A digit from [lo] to [hi], as [[1-9]] is one from 1 to 9. *)
Definition digit_between (lo hi : Z) (c : ascii) : bool :=
  is_digit c && (lo <=? digit_value c) && (digit_value c <=? hi).

(** One alternative of a group of the regular expression: it reads a
    number off the front of the text, or does not match. *)
Definition alternative := string → option (Z * string).

Definition two_digits (lo1 hi1 lo2 hi2 : Z) : alternative := fun s =>
  match s with
  | String a (String b rest) =>
      if digit_between lo1 hi1 a && digit_between lo2 hi2 b
      then Some (10 * digit_value a + digit_value b, rest)
      else None
  | _ => None
  end.

Definition one_digit (lo hi : Z) : alternative := fun s =>
  match s with
  | String a rest => if digit_between lo hi a then Some (digit_value a, rest) else None
  | _ => None
  end.

Definition space_digit (lo hi : Z) : alternative := fun s =>
  match s with
  | String " " rest => one_digit lo hi rest
  | _ => None
  end.

(** [%m] is [1[0-2]|0[1-9]|[1-9]] and [%d] is
    [3[01]|[12]\d|0[1-9]|[1-9]| [1-9]]. *)
Definition month_alternatives : list alternative :=
  [two_digits 1 1 0 2; two_digits 0 0 1 9; one_digit 1 9].

Definition day_alternatives : list alternative :=
  [two_digits 3 3 0 1; two_digits 1 2 0 9; two_digits 0 0 1 9; one_digit 1 9;
   space_digit 1 9].

(** The alternatives are tried from left to right; the first one after
    which the rest of the expression ([continue]) matches is taken. *)
Fixpoint first_match {A : Type} (alternatives : list alternative)
    (continue : Z → string → option A) (s : string) : option A :=
  match alternatives with
  | [] => None
  | alt :: others =>
      match alt s with
      | Some (n, rest) =>
          match continue n rest with
          | Some r => Some r
          | None => first_match others continue s
          end
      | None => first_match others continue s
      end
  end.

Definition hyphen_then {A : Type} (continue : string → option A) (s : string) : option A :=
  match s with
  | String "-" rest => continue rest
  | _ => None
  end.

(** [%Y] is four digits.  The match gives year, month, day and what is left
    of the text. *)
Definition match_Ymd (s : string) : option (Z * Z * Z * string) :=
  match s with
  | String a (String b (String c (String d rest))) =>
      if is_digit a && is_digit b && is_digit c && is_digit d
      then
        let y := 1000 * digit_value a + 100 * digit_value b
                 + 10 * digit_value c + digit_value d in
        hyphen_then (first_match month_alternatives (fun m =>
          hyphen_then (first_match day_alternatives (fun d rest' =>
            Some (y, m, d, rest'))))) rest
      else None
  | _ => None
  end.

Definition is_leap (y : Z) : bool :=
  (y mod 4 =? 0) && (negb (y mod 100 =? 0) || (y mod 400 =? 0)).

Definition days_in_month (y m : Z) : Z :=
  if m =? 2 then (if is_leap y then 29 else 28)
  else if (m =? 4) || (m =? 6) || (m =? 9) || (m =? 11) then 30
  else 31.

(** The day number, counted from 1970-01-01, of a civil date. *)
Definition days_from_civil (y m d : Z) : Z :=
  let y := if m <=? 2 then y - 1 else y in
  let era := y / 400 in
  let yoe := y - era * 400 in
  let doy := (153 * (if 2 <? m then m - 3 else m + 9) + 2) / 5 + d - 1 in
  let doe := yoe * 365 + yoe / 4 - yoe / 100 + doy in
  era * 146097 + doe - 719468.

(** The day number of the [datetime] that [strptime] gives.  It raises
    [ValueError] when the text does not match, when text is left over after
    the match, and when the numbers are no date of the years 1 to 9999. *)
Definition strptime_Ymd (s : string) : result Z :=
  match match_Ymd s with
  | Some (y, m, d, EmptyString) =>
      if (1 <=? y) && (d <=? days_in_month y m) then Ok (days_from_civil y m d)
      else Raise ValueError_strptime
  | _ => Raise ValueError_strptime
  end.

(** ** The dates to fetch *)

Definition existing_dates (existing_files : list string) : gset string :=
  list_to_set (extract_date_from_filename <$> existing_files).

(** The jobs the list comprehension of lines 96-105 submits: one for each
    date in turn, up to the first date [strptime] refuses; and whether it
    came to the end of the dates. *)
Fixpoint submitted (dates : list string) : list Z * bool :=
  match dates with
  | [] => ([], true)
  | date :: rest =>
      match strptime_Ymd date with
      | Ok day => let '(jobs, complete) := submitted rest in (day :: jobs, complete)
      | Raise _ => ([], false)
      end
  end.

(** One job in the pool.  Its exception, if any, is kept in its future;
    lines 110-113 print it when the futures are collected ([collected]). *)
Definition run_job (remote : string → http_reply) (symbol market base_extract_to : string)
    (collected : bool) (w : world) (day : Z) : world :=
  match download_and_extract_zip remote symbol day market base_extract_to w with
  | (Ok _, w') => w'
  | (Raise e, w') =>
      if collected
      then {| files := files w'; stdout := stdout w' ++ [Error_occurred e] |}
      else w'
  end.

(** [keys] are the keys of the store, [remote] its answers to downloads;
    [iteration] is the order in which Python goes through a set.  The pool
    runs the jobs on ten threads; the model runs them one after the other
    in the order they were submitted, which is one of the schedules, and the
    value returned is the same on every schedule.  When [strptime] refuses a
    date, the jobs submitted before it still run, and [ValueError] leaves
    the function. *)
Definition get_new_data (iteration : gset string → list string)
    (remote : string → http_reply) (keys : list string)
    (symbol market base_extract_to : string) (w : world) :
    result (gset string) * world :=
  let existing_files := get_existing_files keys in
  let existing_dates := existing_dates existing_files in
  let local_dates := get_local_dates (files w) base_extract_to symbol market in
  let missing_dates := existing_dates ∖ local_dates in
  let '(jobs, complete) := submitted (iteration missing_dates) in
  let w' := foldl (run_job remote symbol market base_extract_to complete) w jobs in
  (if complete then Ok missing_dates else Raise ValueError_strptime, w').

(** ** Stores and servers for the examples *)

(** The key of the archive of one day of BTCUSDT on the [um] market. *)
Definition archive_key (day : Z) : string :=
  "data/futures/um/daily/liquidationSnapshot/BTCUSDT/BTCUSDT-liquidationSnapshot-"
  +:+ strftime_Ymd day +:+ ".zip".

(** The archives of [n] days in a row from day [first]. *)
Definition published (first n : Z) : list string := archive_key <$> seqZ first n.

(** A server that answers every request with [reply]. *)
Definition serving (reply : http_reply) : string → http_reply := fun _ => reply.

Definition empty_world : world := {| files := ∅; stdout := [] |}.

Definition csv_of_day (symbol : string) (day : Z) : string :=
  symbol +:+ "-liquidationSnapshot-" +:+ strftime_Ymd day +:+ ".csv".

(** ** Tests on text used to state properties *)

(** [sep in s] *)
Fixpoint occurs (sep s : string) : bool :=
  String.prefix sep s ||
  match s with
  | EmptyString => false
  | String _ s' => occurs sep s'
  end.

(** The separator in front of the date of a file name. *)
Definition snapshot_sep : string := "liquidationSnapshot-".

(** While the scan passes an occurrence of [snapshot_sep], the text ahead
    starts with what is left of it. *)
Definition inside_sep (skip : nat) (ahead : string) : Prop :=
  skip = 0%nat ∨
  ∃ u v, u ≠ EmptyString ∧ snapshot_sep = u +:+ v ∧ String.length v = skip ∧
         String.prefix v ahead = true.

Definition digits : list ascii :=
  ["0"; "1"; "2"; "3"; "4"; "5"; "6"; "7"; "8"; "9"]%char.

(** A member that [zipfile] copies out whole. *)
Definition intact (m : zip_member) : Prop := ∃ content, member m = Intact content.

(** * [summary.py] in binary64

    The second reading of [summarize_liquidations].  The columns
    [original_quantity] and [average_price] are [float64], as pandas reads
    them from files that write them with decimals.  The calendar, the order
    of the keys and the exceptions are those of the first reading. *)

Module B64.

(** A [float64] cell is a [spec_float] of 53 bits of precision, in its
    canonical form; the four operations round to nearest, ties to even. *)
Definition prec : Z := 53.
Definition emax : Z := 1024.

Definition add : spec_float → spec_float → spec_float := SFadd prec emax.
Definition sub : spec_float → spec_float → spec_float := SFsub prec emax.
Definition mul : spec_float → spec_float → spec_float := SFmul prec emax.
Definition div : spec_float → spec_float → spec_float := SFdiv prec emax.

Definition zero : spec_float := S754_zero false.

(** The float of a whole number, and of a number of tenths written with
    one decimal place ([0.1] is [tenths 1]). *)
Definition of_Z (z : Z) : spec_float := binary_normalize prec emax z 0 false.

Definition tenths (n : Z) : spec_float := div (of_Z n) (of_Z 10).

Definition isna (x : spec_float) : bool :=
  match x with
  | S754_nan => true
  | _ => false
  end.

Definition is_zero (x : spec_float) : bool :=
  match x with
  | S754_zero _ => true
  | _ => false
  end.

(** [fillna(0)] on one cell of the pivoted frame. *)
Definition fillna0 (c : option spec_float) : spec_float :=
  match c with
  | Some x => if isna x then zero else x
  | None => zero
  end.

Global Instance spec_float_eq_dec : EqDecision spec_float.
Proof. solve_decision. Defined.

(** Two cells are the same for [drop_duplicates] when they are equal as
    floats or both NaN: the two zeros are the same, NaN is the same as NaN. *)
Definition same_cell (x y : spec_float) : bool :=
  bool_decide (x = y) || (is_zero x && is_zero y).

(** A cell of a column the summary never reads: a text, a whole number or
    a float, by the type of its column. *)
Inductive cell :=
  | Text (s : string)
  | Whole (n : Z)
  | Number (x : spec_float).

Definition same_value (c1 c2 : cell) : bool :=
  match c1, c2 with
  | Text a, Text b => bool_decide (a = b)
  | Whole a, Whole b => bool_decide (a = b)
  | Number x, Number y => same_cell x y
  | _, _ => false
  end.

Fixpoint same_values (l1 l2 : list cell) : bool :=
  match l1, l2 with
  | [], [] => true
  | c1 :: l1', c2 :: l2' => same_value c1 c2 && same_values l1' l2'
  | _, _ => false
  end.

(** One line of a daily CSV file; [other_columns] are the cells of the
    columns the summary never reads (order type, time in force, price,
    status, fill quantities), which take part in [drop_duplicates] only. *)
Record raw_event := {
  time : Z;
  side : Side;
  original_quantity : spec_float;
  average_price : spec_float;
  other_columns : list cell;
}.

(** Two lines are duplicates when they are the same in every column. *)
Definition same_line (r1 r2 : raw_event) : bool :=
  bool_decide (time r1 = time r2) && bool_decide (side r1 = side r2)
  && same_cell (original_quantity r1) (original_quantity r2)
  && same_cell (average_price r1) (average_price r2)
  && same_values (other_columns r1) (other_columns r2).

Record event := {
  raw : raw_event;
  date : string;
  volume : spec_float;
}.

Record group := {
  g_date : string;
  g_side : Side;
  total_volume : spec_float;
  total_liquidations : spec_float;
}.

Record row := {
  row_date : string;
  Shorts : spec_float;
  Longs : spec_float;
  price : spec_float;
}.

Global Instance row_eq_dec : EqDecision row.
Proof. solve_decision. Defined.

(** [DataFrame.drop_duplicates] (keep="first"): a line is dropped when a
    line kept before it is the same; [seen] holds the lines kept. *)
Fixpoint drop_duplicates_from (seen l : list raw_event) : list raw_event :=
  match l with
  | [] => []
  | x :: l' =>
      if existsb (same_line x) seen then drop_duplicates_from seen l'
      else x :: drop_duplicates_from (x :: seen) l'
  end.

Definition drop_duplicates (l : list raw_event) : list raw_event :=
  drop_duplicates_from [] l.

(** The sum of one group as [group_sum] of pandas adds it up: the lines in
    their order, with the compensation of Kahan; a NaN is skipped, and a
    compensation that comes out as NaN is put back to 0. *)
Definition kahan_step (acc : spec_float * spec_float) (val : spec_float) :
    spec_float * spec_float :=
  let '(sumx, compensation) := acc in
  if isna val then acc
  else
    let y := sub val compensation in
    let t := add sumx y in
    let c := sub (sub t sumx) y in
    (t, if isna c then zero else c).

Definition group_sum (values : list spec_float) : spec_float :=
  (foldl kahan_step (zero, zero) values).1.

Definition add_columns (r : raw_event) : result event :=
  d ← convert_timestamp_to_date (time r);
  mret {| raw := r; date := d;
          volume := mul (original_quantity r) (average_price r) |}.

Definition group_key (e : event) : string * Side := (date e, side (raw e)).

Definition agg_group (data : list event) (k : string * Side) : group :=
  let members := filter (fun e => group_key e = k) data in
  {| g_date := k.1; g_side := k.2;
     total_volume := group_sum (volume <$> members);
     total_liquidations := group_sum ((original_quantity ∘ raw) <$> members) |}.

Definition groupby_agg (data : list event) : list group :=
  agg_group data <$> sorted_unique key_le (group_key <$> data).

Definition summary_average_price (g : group) : spec_float :=
  div (total_volume g) (total_liquidations g).

Definition pivot_index (summary : list group) : list string :=
  sorted_unique String.le (g_date <$> summary).

Definition pivot_has_column (summary : list group) (s : Side) : bool :=
  bool_decide (s ∈ g_side <$> summary).

Definition pivot_cell (summary : list group) (d : string) (s : Side) : option group :=
  head (filter (fun g => g_date g = d ∧ g_side g = s) summary).

Definition pivot_row (summary : list group) (d : string) : row :=
  let buy_volume := fillna0 (total_volume <$> pivot_cell summary d BUY) in
  let sell_volume := fillna0 (total_volume <$> pivot_cell summary d SELL) in
  let buy_price := fillna0 (summary_average_price <$> pivot_cell summary d BUY) in
  let sell_price := fillna0 (summary_average_price <$> pivot_cell summary d SELL) in
  {| row_date := d;
     Shorts := buy_volume;
     Longs := sell_volume;
     price := div (add (mul buy_price buy_volume) (mul sell_price sell_volume))
                  (add buy_volume sell_volume) |}.

Definition summarize_liquidations (files : list (list raw_event)) : result (list row) :=
  if decide (files = []) then Raise ValueError_no_objects
  else
    let all_data := drop_duplicates (concat files) in
    all_data ← mapM add_columns all_data;
    let summary := groupby_agg all_data in
    if negb (pivot_has_column summary BUY) then Raise (KeyError "Average Buy Price")
    else if negb (pivot_has_column summary SELL) then Raise (KeyError "Average Sell Price")
    else
      index ← mapM to_datetime (pivot_index summary);
      Ok (pivot_row summary <$> index).

(** ** What a line of the table stands for *)

Definition deduplicated (files : list (list raw_event)) : list raw_event :=
  drop_duplicates (concat files).

Definition on_day (d : string) (s : Side) (r : raw_event) : Prop :=
  convert_timestamp_to_date (time r) = Ok d ∧ side r = s.

Global Instance on_day_dec d s r : Decision (on_day d s r).
Proof. unfold on_day. apply _. Defined.

(** The lines kept of a date and side, in the order of the files. *)
Definition day_records (files : list (list raw_event)) (d : string) (s : Side) :
    list raw_event :=
  filter (on_day d s) (deduplicated files).

Definition usd (r : raw_event) : spec_float :=
  mul (original_quantity r) (average_price r).

Definition day_volume (files : list (list raw_event)) (d : string) (s : Side) :
    spec_float :=
  group_sum (usd <$> day_records files d s).

Definition day_quantity (files : list (list raw_event)) (d : string) (s : Side) :
    spec_float :=
  group_sum (original_quantity <$> day_records files d s).

(** The average price of a side on a date as the price formula reads it:
    volume over quantity, and 0 where that is NaN. *)
Definition day_average_price (files : list (list raw_event)) (d : string) (s : Side) :
    spec_float :=
  fillna0 (Some (div (day_volume files d s) (day_quantity files d s))).

Definition day_row (files : list (list raw_event)) (d : string) : row :=
  let buy_volume := fillna0 (Some (day_volume files d BUY)) in
  let sell_volume := fillna0 (Some (day_volume files d SELL)) in
  {| row_date := d;
     Shorts := buy_volume;
     Longs := sell_volume;
     price := div (add (mul (day_average_price files d BUY) buy_volume)
                       (mul (day_average_price files d SELL) sell_volume))
                  (add buy_volume sell_volume) |}.

Definition has_date (files : list (list raw_event)) (d : string) : Prop :=
  ∃ r, r ∈ deduplicated files ∧ convert_timestamp_to_date (time r) = Ok d.

Definition has_side (files : list (list raw_event)) (s : Side) : Prop :=
  ∃ r, r ∈ deduplicated files ∧ side r = s.

(** Every line kept falls on a date that [datetime] and pandas can hold. *)
Definition all_dated (files : list (list raw_event)) : Prop :=
  ∀ r, r ∈ deduplicated files →
       ∃ d, convert_timestamp_to_date (time r) = Ok d ∧ to_datetime d = Ok d.

(** The column of the table a side's volume goes to: liquidated shorts
    are bought back, liquidated longs are sold. *)
Definition side_column (s : Side) (r : row) : spec_float :=
  match s with
  | BUY => Shorts r
  | SELL => Longs r
  end.

Definition liquidation (t : Z) (s : Side) (q p : spec_float) : raw_event :=
  {| time := t; side := s; original_quantity := q; average_price := p;
     other_columns := [] |}.

Definition table_row (d : string) (shorts longs p : spec_float) : row :=
  {| row_date := d; Shorts := shorts; Longs := longs; price := p |}.

End B64.

(** * Properties of the aggregation *)

(** ** [drop_duplicates] *)

Section drop_duplicates_facts.
Context {A : Type} `{EqDecision A}.
Implicit Types l seen : list A.

Lemma elem_of_drop_duplicates_from seen l x :
  x ∈ drop_duplicates_from seen l ↔ x ∈ l ∧ x ∉ seen.
Proof.
  revert seen. induction l as [|y l IH]; intros seen; simpl.
  - rewrite !elem_of_nil. tauto.
  - destruct (decide (y ∈ seen)) as [Hy|Hy].
    + rewrite IH, elem_of_cons. split; [tauto|].
      intros [[->|?] ?]; tauto.
    + rewrite !elem_of_cons, IH, elem_of_cons.
      destruct (decide (x = y)) as [->|]; tauto.
Qed.

Lemma NoDup_drop_duplicates_from seen l : NoDup (drop_duplicates_from seen l).
Proof.
  revert seen. induction l as [|y l IH]; intros seen; simpl.
  - constructor.
  - destruct (decide (y ∈ seen)); [apply IH|].
    constructor; [|apply IH].
    rewrite elem_of_drop_duplicates_from, elem_of_cons. tauto.
Qed.

Lemma elem_of_drop_duplicates l x : x ∈ drop_duplicates l ↔ x ∈ l.
Proof.
  unfold drop_duplicates. rewrite elem_of_drop_duplicates_from, elem_of_nil. tauto.
Qed.

Lemma NoDup_drop_duplicates l : NoDup (drop_duplicates l).
Proof. apply NoDup_drop_duplicates_from. Qed.

Lemma drop_duplicates_NoDup_id_from seen l :
  NoDup l → (∀ x, x ∈ l → x ∉ seen) → drop_duplicates_from seen l = l.
Proof.
  revert seen. induction l as [|y l IH]; intros seen Hnd Hs; simpl; [done|].
  apply NoDup_cons in Hnd as [Hy Hnd].
  destruct (decide (y ∈ seen)) as [Hin|_].
  - exfalso. apply (Hs y); [left|done].
  - f_equal. apply IH; [done|].
    intros x Hx. rewrite elem_of_cons. intros [->|Hx']; [done|].
    apply (Hs x); [by right|done].
Qed.

Lemma drop_duplicates_NoDup_id l : NoDup l → drop_duplicates l = l.
Proof.
  intros Hnd. apply drop_duplicates_NoDup_id_from; [done|].
  intros x _. apply not_elem_of_nil.
Qed.
End drop_duplicates_facts.

(** ** The order of keys is a decidable total order *)

Lemma side_le_cases a b : side_le a b ↔ (a = BUY ∨ b = SELL).
Proof.
  destruct a, b; unfold side_le; simpl; split; intros H;
    try (by left); try (by right); try (by vm_compute); try done.
  destruct H; done.
Qed.

Global Instance side_le_po : PartialOrder side_le.
Proof.
  split; [split|].
  - intros []; apply side_le_cases; auto.
  - intros a b c. rewrite !side_le_cases. destruct a, b, c; intuition congruence.
  - intros a b. rewrite !side_le_cases. destruct a, b; intuition congruence.
Qed.

Global Instance side_le_total : Total side_le.
Proof. intros a b. rewrite !side_le_cases. destruct a, b; auto. Qed.

Global Instance key_le_po : PartialOrder key_le.
Proof.
  split; [split|].
  - intros [d s]. unfold key_le; simpl. rewrite decide_True by done. done.
  - intros [d1 s1] [d2 s2] [d3 s3]. unfold key_le; simpl.
    repeat case_decide; subst; try done.
    + apply transitivity.
    + intros H1 H2. destruct H. by apply (anti_symm String.le).
    + apply transitivity.
  - intros [d1 s1] [d2 s2]. unfold key_le; simpl.
    repeat case_decide; subst; try done.
    + intros. f_equal. by apply (anti_symm side_le).
    + intros. destruct H. by apply (anti_symm String.le).
Qed.

Global Instance key_le_total : Total key_le.
Proof.
  intros [d1 s1] [d2 s2]. unfold key_le; simpl.
  repeat case_decide; subst; try done.
  - apply (total side_le).
  - apply (total String.le).
Qed.

(** ** Sorted key columns *)

Section sorted_unique_facts.
Context {K : Type} `{EqDecision K} (le : relation K) `{!RelDecision le}.
Context `{!PartialOrder le} `{!Total le}.
Implicit Types l : list K.

Lemma elem_of_sorted_unique l x : x ∈ sorted_unique le l ↔ x ∈ l.
Proof.
  unfold sorted_unique. rewrite merge_sort_Permutation. apply elem_of_remove_dups.
Qed.

Lemma NoDup_sorted_unique l : NoDup (sorted_unique le l).
Proof.
  unfold sorted_unique. rewrite merge_sort_Permutation. apply NoDup_remove_dups.
Qed.

Lemma Sorted_sorted_unique l : Sorted le (sorted_unique le l).
Proof. apply (Sorted_merge_sort le). Qed.

(** Without repetition, ascending is strictly ascending. *)
Lemma Sorted_strict_sorted_unique l : Sorted (strict le) (sorted_unique le l).
Proof.
  assert (Hs : StronglySorted le (sorted_unique le l)).
  { apply (StronglySorted_merge_sort le). }
  pose proof (NoDup_sorted_unique l) as Hnd.
  induction Hs as [|x k Hs IH Hall]; [constructor|].
  apply NoDup_cons in Hnd as [Hx Hnd].
  constructor; [by apply IH|].
  destruct k as [|y k]; constructor.
  apply Forall_cons in Hall as [Hxy _].
  split; [done|]. intros Hyx.
  apply Hx. assert (x = y) as -> by (by apply (anti_symm le)). left.
Qed.

End sorted_unique_facts.

Lemma Sorted_weaken {A} (R1 R2 : relation A) l :
  (∀ a b, R1 a b → R2 a b) → Sorted R1 l → Sorted R2 l.
Proof.
  intros HR. induction 1 as [|x l _ IH Hhd]; constructor; [done|].
  destruct Hhd; constructor. by apply HR.
Qed.

Lemma strict_String_le_ltb a b : strict String.le a b ↔ date_lt a b.
Proof.
  unfold strict, date_lt, String.le, String.leb, String.ltb.
  rewrite (String.compare_antisym a b).
  destruct (String.compare b a); simpl; split; try done; tauto.
Qed.

(** ** Adding the [date] and [volume] columns *)

Lemma add_columns_Ok r e :
  add_columns r = Ok e ↔
  convert_timestamp_to_date (time r) = Ok (date e) ∧ raw e = r ∧
  volume e = (original_quantity r * average_price r)%Qc.
Proof.
  unfold add_columns. destruct (convert_timestamp_to_date (time r)) as [d|x]; simpl.
  - split.
    + intros [= <-]. done.
    + intros ([= ->] & <- & Hv). destruct e as [r' d' v]; simpl in *. by subst.
  - split; [done|]. intros [? _]. done.
Qed.

Lemma mapM_add_columns_cons r l :
  mapM add_columns (r :: l) =
  e ← add_columns r; k ← mapM add_columns l; mret (e :: k).
Proof. done. Qed.

Lemma mapM_add_columns_Ok l data :
  mapM add_columns l = Ok data ↔ Forall2 (fun r e => add_columns r = Ok e) l data.
Proof.
  revert data. induction l as [|r l IH]; intros data.
  - simpl. split.
    + intros [= <-]. constructor.
    + intros ->%Forall2_nil_inv_l. done.
  - rewrite mapM_add_columns_cons. split.
    + destruct (add_columns r) as [e|x] eqn:He; simpl; [|done].
      destruct (mapM add_columns l) as [k|x] eqn:Hk; simpl; [|done].
      intros [= <-]. constructor; [done|]. by apply IH.
    + intros (e & k & He & Hk & ->)%Forall2_cons_inv_l.
      rewrite He. simpl. apply IH in Hk. rewrite Hk. done.
Qed.

(** Every line has a date: the columns can be added. *)
Lemma mapM_add_columns_total l :
  (∀ r, r ∈ l → ∃ d, convert_timestamp_to_date (time r) = Ok d) →
  ∃ data, mapM add_columns l = Ok data.
Proof.
  induction l as [|r l IH]; intros Hd.
  - by exists [].
  - destruct IH as [k Hk]. { intros r' Hr'. apply Hd. by right. }
    destruct (Hd r) as [d Hr]; [left|].
    rewrite mapM_add_columns_cons, Hk. unfold add_columns. rewrite Hr. simpl. eauto.
Qed.

Lemma mapM_to_datetime_Ok l index :
  mapM to_datetime l = Ok index ↔ index = l ∧ ∀ d, d ∈ l → to_datetime d = Ok d.
Proof.
  revert index. induction l as [|d l IH]; intros index.
  - simpl. split.
    + intros [= <-]. split; [done|]. intros d Hd. by apply elem_of_nil in Hd.
    + by intros [-> _].
  - change (mapM to_datetime (d :: l))
      with (y ← to_datetime d; k ← mapM to_datetime l; mret (y :: k)).
    split.
    + destruct (to_datetime d) as [y|x] eqn:Hd; simpl; [|done].
      destruct (mapM to_datetime l) as [k|x]; simpl; [|done].
      intros [= <-]. destruct (proj1 (IH k) eq_refl) as [-> Hall].
      assert (y = d) as ->.
      { unfold to_datetime in Hd. destruct (_ && _); congruence. }
      split; [done|]. intros d' [->|?]%elem_of_cons; auto.
    + intros [-> Hall]. rewrite (Hall d) by left. simpl.
      assert (mapM to_datetime l = Ok l) as ->; [|done].
      apply IH. split; [done|]. intros d' Hd'. apply Hall. by right.
Qed.

Lemma mapM_add_columns_elem l data r :
  mapM add_columns l = Ok data → r ∈ l →
  ∃ d, convert_timestamp_to_date (time r) = Ok d.
Proof.
  rewrite mapM_add_columns_Ok. intros HF [i Hi]%list_elem_of_lookup_1.
  destruct (Forall2_lookup_l _ _ _ _ _ HF Hi) as (e & _ & He).
  apply add_columns_Ok in He as [He _]. eauto.
Qed.

(** ** Groups and pivot cells *)

Lemma group_key_on_day r e d s :
  add_columns r = Ok e → group_key e = (d, s) ↔ on_day d s r.
Proof.
  intros (Hd & Hr & _)%add_columns_Ok. unfold group_key, on_day.
  rewrite Hd, Hr. split.
  - intros [= -> ->]. done.
  - intros [[= ->] ->]. done.
Qed.

Lemma group_members l data d s :
  Forall2 (fun r e => add_columns r = Ok e) l data →
  volume <$> filter (fun e => group_key e = (d, s)) data
    = usd <$> filter (on_day d s) l ∧
  (original_quantity ∘ raw) <$> filter (fun e => group_key e = (d, s)) data
    = original_quantity <$> filter (on_day d s) l.
Proof.
  induction 1 as [|r e l data He _ [IH1 IH2]]; [done|].
  pose proof (group_key_on_day r e d s He) as Hk.
  apply add_columns_Ok in He as (_ & Hr & Hv).
  rewrite !filter_cons.
  destruct (decide (group_key e = (d, s))) as [Hg|Hg];
    destruct (decide (on_day d s r)) as [Ho|Ho]; try tauto.
  rewrite !fmap_cons, IH1, IH2. simpl. unfold usd. rewrite Hv, Hr. done.
Qed.

Lemma group_key_elem l data d s :
  Forall2 (fun r e => add_columns r = Ok e) l data →
  (d, s) ∈ group_key <$> data ↔ ∃ r, r ∈ l ∧ on_day d s r.
Proof.
  induction 1 as [|r e l data He _ IH].
  - simpl. rewrite elem_of_nil. split; [done|]. intros (r & Hr & _).
    by apply elem_of_nil in Hr.
  - rewrite fmap_cons, elem_of_cons, IH.
    pose proof (group_key_on_day r e d s He) as Hk. split.
    + intros [Heq|(r' & Hr' & Ho)].
      * exists r. split; [left|]. by apply Hk.
      * exists r'. split; [by right|done].
    + intros (r' & [->|Hr']%elem_of_cons & Ho).
      * left. symmetry. by apply Hk.
      * right. eauto.
Qed.

Lemma pivot_cell_fmap data (ks : list (string * Side)) d s :
  head (filter (fun g => g_date g = d ∧ g_side g = s) (agg_group data <$> ks))
  = if decide ((d, s) ∈ ks) then Some (agg_group data (d, s)) else None.
Proof.
  induction ks as [|[d' s'] ks IH]; [done|].
  rewrite fmap_cons, filter_cons. simpl.
  destruct (decide (d' = d ∧ s' = s)) as [[-> ->]|Hne].
  - simpl. rewrite decide_True by left. done.
  - rewrite IH. destruct (decide ((d, s) ∈ ks)) as [Hin|Hin].
    + rewrite decide_True by (by right). done.
    + rewrite decide_False; [done|].
      intros [[= -> ->]|?]%elem_of_cons; tauto.
Qed.

Lemma pivot_cell_groupby data d s :
  pivot_cell (groupby_agg data) d s
  = if decide ((d, s) ∈ group_key <$> data) then Some (agg_group data (d, s)) else None.
Proof.
  unfold pivot_cell, groupby_agg. rewrite pivot_cell_fmap.
  destruct (decide ((d, s) ∈ group_key <$> data)) as [Hin|Hin].
  - rewrite decide_True; [done|]. by apply (elem_of_sorted_unique key_le).
  - rewrite decide_False; [done|]. by rewrite (elem_of_sorted_unique key_le).
Qed.

Lemma filter_group_key_nil data k :
  k ∉ group_key <$> data → filter (fun e => group_key e = k) data = [].
Proof.
  intros Hk. induction data as [|e data IH]; [done|].
  rewrite filter_cons. rewrite fmap_cons, not_elem_of_cons in Hk.
  destruct Hk as [Hne Hk]. rewrite decide_False by congruence. by apply IH.
Qed.

(** ** The pivoted frame against the deduplicated lines *)

Section pivot_facts.
Variable files : list (list raw_event).
Variable data : list event.
Hypothesis Hdata : mapM add_columns (deduplicated files) = Ok data.

Let HF : Forall2 (fun r e => add_columns r = Ok e) (deduplicated files) data.
Proof. by apply mapM_add_columns_Ok. Qed.

Lemma agg_group_day d s :
  total_volume (agg_group data (d, s)) = day_volume files d s ∧
  total_liquidations (agg_group data (d, s)) = day_quantity files d s.
Proof.
  destruct (group_members _ _ d s HF) as [H1 H2].
  unfold agg_group, day_volume, day_quantity, day_records; simpl.
  rewrite H1, H2. done.
Qed.

Lemma absent_day d s :
  (d, s) ∉ group_key <$> data →
  day_volume files d s = 0%Qc ∧ day_quantity files d s = 0%Qc.
Proof.
  intros Hk. destruct (agg_group_day d s) as [<- <-].
  unfold agg_group; simpl. rewrite (filter_group_key_nil _ _ Hk). done.
Qed.

Lemma cell_volume d s :
  fillna0 (Fin ∘ total_volume <$> pivot_cell (groupby_agg data) d s)
  = Fin (day_volume files d s).
Proof.
  rewrite pivot_cell_groupby. destruct (agg_group_day d s) as [Hv _].
  case_decide as Hk.
  - change (Fin (total_volume (agg_group data (d, s))) = Fin (day_volume files d s)).
    by rewrite Hv.
  - by destruct (absent_day d s Hk) as [-> _].
Qed.

Lemma cell_average_price d s :
  fillna0 (summary_average_price <$> pivot_cell (groupby_agg data) d s)
  = day_average_price files d s.
Proof.
  rewrite pivot_cell_groupby. unfold day_average_price.
  destruct (agg_group_day d s) as [Hv Hq].
  case_decide as Hk.
  - change (fillna0 (Some (summary_average_price (agg_group data (d, s)))) =
            fillna0 (Some (fdiv (Fin (day_volume files d s))
                                (Fin (day_quantity files d s))))).
    unfold summary_average_price. by rewrite Hv, Hq.
  - destruct (absent_day d s Hk) as [-> ->]. done.
Qed.

Lemma pivot_row_day_row d : pivot_row (groupby_agg data) d = day_row files d.
Proof.
  unfold pivot_row, day_row, weighted_mean.
  rewrite !cell_volume, !cell_average_price. done.
Qed.

Lemma elem_of_groupby_keys d s :
  (d, s) ∈ group_key <$> data ↔ day_records files d s ≠ [].
Proof.
  rewrite (group_key_elem _ _ d s HF). unfold day_records. split.
  - intros (r & Hr & Ho) Hnil.
    assert (r ∈ filter (on_day d s) (deduplicated files)) as Hin
      by (by apply list_elem_of_filter).
    rewrite Hnil in Hin. by apply elem_of_nil in Hin.
  - intros Hne. destruct (filter (on_day d s) (deduplicated files)) as [|r k] eqn:Hf;
      [done|].
    assert (r ∈ filter (on_day d s) (deduplicated files)) as Hin
      by (rewrite Hf; left).
    apply list_elem_of_filter in Hin as [? ?]. eauto.
Qed.

Lemma elem_of_pivot_index d :
  d ∈ pivot_index (groupby_agg data) ↔ has_date files d.
Proof.
  unfold pivot_index, groupby_agg.
  rewrite (elem_of_sorted_unique String.le), list_elem_of_fmap. split.
  - intros (g & -> & (k & -> & Hk)%list_elem_of_fmap).
    rewrite (elem_of_sorted_unique key_le) in Hk. destruct k as [d s]; simpl.
    apply (group_key_elem _ _ d s HF) in Hk as (r & Hr & Hd & _).
    by exists r.
  - intros (r & Hr & Hd).
    exists (agg_group data (d, side r)). split; [done|].
    apply list_elem_of_fmap. exists (d, side r). split; [done|].
    apply (elem_of_sorted_unique key_le), (group_key_elem _ _ d (side r) HF).
    exists r. done.
Qed.

Lemma pivot_has_column_side s :
  pivot_has_column (groupby_agg data) s = true ↔ has_side files s.
Proof.
  unfold pivot_has_column, groupby_agg.
  rewrite bool_decide_eq_true, list_elem_of_fmap. split.
  - intros (g & -> & (k & -> & Hk)%list_elem_of_fmap).
    rewrite (elem_of_sorted_unique key_le) in Hk. destruct k as [d s']; simpl.
    apply (group_key_elem _ _ d s' HF) in Hk as (r & Hr & _ & Hs).
    by exists r.
  - intros (r & Hr & Hs).
    destruct (mapM_add_columns_elem _ _ r Hdata Hr) as [d Hd].
    exists (agg_group data (d, s)). split; [done|].
    apply list_elem_of_fmap. exists (d, s). split; [done|].
    apply (elem_of_sorted_unique key_le), (group_key_elem _ _ d s HF).
    exists r. done.
Qed.
End pivot_facts.

(** ** When the summary is written, and what it holds *)

Lemma summarize_liquidations_Ok_inv files rows :
  summarize_liquidations files = Ok rows →
  files ≠ [] ∧ all_dated files ∧ has_side files BUY ∧ has_side files SELL ∧
  rows = day_row files <$> (row_date <$> rows) ∧
  Sorted (strict String.le) (row_date <$> rows) ∧
  NoDup (row_date <$> rows) ∧
  (∀ d, d ∈ row_date <$> rows ↔ has_date files d).
Proof.
  unfold summarize_liquidations. case_decide as Hne; [done|].
  fold (deduplicated files).
  destruct (mapM add_columns (deduplicated files)) as [data|x] eqn:Hdata; simpl; [|done].
  destruct (pivot_has_column (groupby_agg data) BUY) eqn:Hb; simpl; [|done].
  destruct (pivot_has_column (groupby_agg data) SELL) eqn:Hs; simpl; [|done].
  destruct (mapM to_datetime (pivot_index (groupby_agg data))) as [index|x] eqn:Hindex;
    simpl; [|done].
  apply mapM_to_datetime_Ok in Hindex as [-> Hbounds].
  intros [= <-].
  assert (Hidx : row_date <$> (pivot_row (groupby_agg data) <$> pivot_index (groupby_agg data))
                 = pivot_index (groupby_agg data)).
  { rewrite <- list_fmap_compose. apply list_fmap_id. }
  rewrite Hidx. repeat split.
  - done.
  - intros r Hr. destruct (mapM_add_columns_elem _ _ r Hdata Hr) as [d Hd].
    exists d. split; [done|]. apply Hbounds.
    apply (elem_of_pivot_index files data Hdata). by exists r.
  - by apply (pivot_has_column_side files data Hdata).
  - by apply (pivot_has_column_side files data Hdata).
  - apply list_fmap_ext. intros _ d _. by apply pivot_row_day_row.
  - apply (Sorted_strict_sorted_unique String.le).
  - apply (NoDup_sorted_unique String.le).
  - by apply (elem_of_pivot_index files data Hdata).
  - by apply (elem_of_pivot_index files data Hdata).
Qed.

Lemma summarize_liquidations_total files :
  files ≠ [] → all_dated files → has_side files BUY → has_side files SELL →
  ∃ rows, summarize_liquidations files = Ok rows.
Proof.
  intros Hne Hd Hb Hs. unfold summarize_liquidations. rewrite decide_False by done.
  fold (deduplicated files).
  destruct (mapM_add_columns_total (deduplicated files)) as [data Hdata].
  { intros r Hr. destruct (Hd r Hr) as (d & ? & _). eauto. }
  rewrite Hdata. simpl.
  apply (pivot_has_column_side files data Hdata) in Hb, Hs. rewrite Hb, Hs. simpl.
  assert (mapM to_datetime (pivot_index (groupby_agg data))
          = Ok (pivot_index (groupby_agg data))) as ->; [|simpl; eauto].
  apply mapM_to_datetime_Ok. split; [done|].
  intros d (r & Hr & Hconv)%(elem_of_pivot_index files data Hdata).
  destruct (Hd r Hr) as (d' & Hconv' & Hbound). congruence.
Qed.

Lemma summarize_liquidations_missing_side files s :
  files ≠ [] → all_dated files → ¬ has_side files s →
  ∃ column, summarize_liquidations files = Raise (KeyError column).
Proof.
  intros Hne Hd Hs. unfold summarize_liquidations. rewrite decide_False by done.
  fold (deduplicated files).
  destruct (mapM_add_columns_total (deduplicated files)) as [data Hdata].
  { intros r Hr. destruct (Hd r Hr) as (d & ? & _). eauto. }
  rewrite Hdata. simpl.
  rewrite <- (pivot_has_column_side files data Hdata), not_true_iff_false in Hs.
  destruct (pivot_has_column (groupby_agg data) BUY) eqn:Hb; simpl; [|eauto].
  destruct (pivot_has_column (groupby_agg data) SELL) eqn:Hs'; simpl; [|eauto].
  destruct s; congruence.
Qed.

(** ** The price formula on special dates *)

Lemma fillna0_zero_volume q : fillna0 (Some (fdiv (Fin 0%Qc) (Fin q))) = Fin 0%Qc.
Proof.
  simpl. case_decide as Hq; [done|].
  simpl. f_equal. unfold Qcdiv. apply Qcmult_0_l.
Qed.

(** * The claims about [summarize_liquidations] *)



(** A date without volume on either side has NaN for price whenever the
    table is written: the pandas division [0 / 0] raises nothing. *)
Lemma zero_volume_price files d :
  all_dated files → has_side files BUY → has_side files SELL → has_date files d →
  day_volume files d BUY = 0%Qc → day_volume files d SELL = 0%Qc →
  ∃ rows r, summarize_liquidations files = Ok rows ∧ r ∈ rows ∧ row_date r = d ∧
            Shorts r = Fin 0%Qc ∧ Longs r = Fin 0%Qc ∧ price r = NaN.
Proof.
  intros Hall Hb Hs Hd Hvb Hvs.
  assert (files ≠ []) as Hne.
  { intros ->. destruct Hd as (r & Hr & _). by apply elem_of_nil in Hr. }
  destruct (summarize_liquidations_total files Hne Hall Hb Hs) as [rows Hrows].
  destruct (summarize_liquidations_Ok_inv _ _ Hrows)
    as (_ & _ & _ & _ & Heq & _ & _ & Hidx).
  exists rows, (day_row files d). split; [done|]. split.
  - rewrite Heq. apply list_elem_of_fmap. exists d. split; [done|]. by apply Hidx.
  - unfold day_row, day_average_price; cbn [row_date Shorts Longs price].
    rewrite Hvb, Hvs, !fillna0_zero_volume. done.
Qed.

(** C5.  A date whose volume is 0 on both sides should give a line with an
    undefined price.  In a corpus where one side never occurs no line is
    given at all: the column of that side is missing from the pivot and
    reading it raises [KeyError].  ([zero_volume_price] is the behaviour
    when both sides occur.) *)
Theorem C5_zero_volume_one_sided_corpus :
  let files := [[liquidation 1704067200000 BUY 0 100]] in
  has_date files "2024-01-01" ∧
  day_volume files "2024-01-01" BUY = 0%Qc ∧
  day_volume files "2024-01-01" SELL = 0%Qc ∧
  summarize_liquidations files = Raise (KeyError "Average Sell Price").
Proof.
  intros files. split; [|split; [|split]]; [|compute_done..].
  exists (liquidation 1704067200000 BUY 0 100). split; [left|compute_done].
Qed.

(** C6.  Without any CSV file, [pd.concat] is given an empty list and raises
    [ValueError]; no empty table is written. *)
Theorem C6_no_files_raises :
  summarize_liquidations [] = Raise ValueError_no_objects.
Proof. reflexivity. Qed.

(** C9.  The lines of a written table are strictly ascending by date: no
    date occurs twice and each line's date is below the next one's (dates
    are the [YYYY-MM-DD] texts, compared as pandas compares the index). *)
Theorem C9_rows_strictly_ascending files rows :
  summarize_liquidations files = Ok rows →
  Sorted date_lt (row_date <$> rows) ∧ NoDup (row_date <$> rows).
Proof.
  intros (_ & _ & _ & _ & _ & Hs & Hnd & _)%summarize_liquidations_Ok_inv.
  split; [|done].
  apply (Sorted_weaken (strict String.le)); [|done].
  intros a b. apply strict_String_le_ltb.
Qed.

Lemma C9_rows_strictly_ascending_witness :
  let files := [[liquidation 1704153600000 SELL 1 200];
                [liquidation 1704067200000 BUY 2 100;
                 liquidation 1704240000000 BUY 1 300]] in
  let rows := [table_row "2024-01-01" 200 0 (Fin (Qc_of_Z 100));
               table_row "2024-01-02" 0 200 (Fin (Qc_of_Z 200));
               table_row "2024-01-03" 300 0 (Fin (Qc_of_Z 300))] in
  Sorted date_lt (row_date <$> rows) ∧ NoDup (row_date <$> rows).
Proof.
  intros files rows. apply (C9_rows_strictly_ascending files rows). compute_done.
Defined.

(** * The claims that depend on rounding: [summarize_liquidations] in binary64 *)

(** ** Lines that are the same *)

Lemma same_cell_refl x : B64.same_cell x x = true.
Proof. unfold B64.same_cell. by rewrite bool_decide_eq_true_2. Qed.



Lemma same_value_refl c : B64.same_value c c = true.
Proof.
  destruct c; simpl; [by rewrite bool_decide_eq_true_2..|apply same_cell_refl].
Qed.



Lemma same_values_refl l : B64.same_values l l = true.
Proof. induction l as [|c l IH]; [done|]. simpl. by rewrite same_value_refl, IH. Qed.



Lemma same_line_refl r : B64.same_line r r = true.
Proof.
  unfold B64.same_line.
  by rewrite !same_cell_refl, same_values_refl, !bool_decide_eq_true_2.
Qed.



(** ** [drop_duplicates] *)


Lemma b64_elem_of_drop_duplicates_from seen l x :
  x ∈ B64.drop_duplicates_from seen l → x ∈ l.
Proof.
  revert seen. induction l as [|y l IH]; intros seen; simpl; [done|].
  destruct (existsb (B64.same_line y) seen).
  - intros ?%IH. by right.
  - intros [->|?%IH]%elem_of_cons; [left|by right].
Qed.

Lemma b64_elem_of_deduplicated files r :
  r ∈ B64.deduplicated files → r ∈ concat files.
Proof. apply b64_elem_of_drop_duplicates_from. Qed.

(** Every line read has a line that is the same among the lines kept. *)
Lemma b64_drop_duplicates_from_covers seen l x :
  x ∈ l →
  existsb (B64.same_line x) (reverse (B64.drop_duplicates_from seen l) ++ seen) = true.
Proof.
  revert seen. induction l as [|y l IH]; intros seen; [by intros ?%elem_of_nil|].
  simpl. intros Hx. destruct (existsb (B64.same_line y) seen) eqn:Hy.
  - apply elem_of_cons in Hx as [->|Hx]; [|by apply IH].
    rewrite existsb_app, Hy. apply orb_true_r.
  - rewrite reverse_cons, <- app_assoc. simpl app.
    apply elem_of_cons in Hx as [->|Hx]; [|by apply IH].
    rewrite existsb_app. simpl. rewrite same_line_refl. simpl. apply orb_true_r.
Qed.







(** ** Adding the columns, grouping and the pivot *)

Lemma b64_add_columns_Ok r e :
  B64.add_columns r = Ok e ↔
  convert_timestamp_to_date (B64.time r) = Ok (B64.date e) ∧ B64.raw e = r ∧
  B64.volume e = B64.usd r.
Proof.
  unfold B64.add_columns, B64.usd.
  destruct (convert_timestamp_to_date (B64.time r)) as [d|x]; simpl.
  - split.
    + intros [= <-]. done.
    + intros ([= ->] & <- & Hv). destruct e as [r' d' v]; simpl in *. by subst.
  - split; [done|]. intros [? _]. done.
Qed.

Lemma b64_mapM_add_columns_cons r l :
  mapM B64.add_columns (r :: l) =
  e ← B64.add_columns r; k ← mapM B64.add_columns l; mret (e :: k).
Proof. done. Qed.

Lemma b64_mapM_add_columns_Ok l data :
  mapM B64.add_columns l = Ok data ↔
  Forall2 (fun r e => B64.add_columns r = Ok e) l data.
Proof.
  revert data. induction l as [|r l IH]; intros data.
  - simpl. split.
    + intros [= <-]. constructor.
    + intros ->%Forall2_nil_inv_l. done.
  - rewrite b64_mapM_add_columns_cons. split.
    + destruct (B64.add_columns r) as [e|x] eqn:He; simpl; [|done].
      destruct (mapM B64.add_columns l) as [k|x] eqn:Hk; simpl; [|done].
      intros [= <-]. constructor; [done|]. by apply IH.
    + intros (e & k & He & Hk & ->)%Forall2_cons_inv_l.
      rewrite He. simpl. apply IH in Hk. rewrite Hk. done.
Qed.

Lemma b64_mapM_add_columns_total l :
  (∀ r, r ∈ l → ∃ d, convert_timestamp_to_date (B64.time r) = Ok d) →
  ∃ data, mapM B64.add_columns l = Ok data.
Proof.
  induction l as [|r l IH]; intros Hd.
  - by exists [].
  - destruct IH as [k Hk]. { intros r' Hr'. apply Hd. by right. }
    destruct (Hd r) as [d Hr]; [left|].
    rewrite b64_mapM_add_columns_cons, Hk. unfold B64.add_columns. rewrite Hr. simpl. eauto.
Qed.

Lemma b64_group_key_on_day r e d s :
  B64.add_columns r = Ok e → B64.group_key e = (d, s) ↔ B64.on_day d s r.
Proof.
  intros (Hd & Hr & _)%b64_add_columns_Ok. unfold B64.group_key, B64.on_day.
  rewrite Hd, Hr. split.
  - intros [= -> ->]. done.
  - intros [[= ->] ->]. done.
Qed.

Lemma b64_group_members l data d s :
  Forall2 (fun r e => B64.add_columns r = Ok e) l data →
  B64.volume <$> filter (fun e => B64.group_key e = (d, s)) data
    = B64.usd <$> filter (B64.on_day d s) l ∧
  (B64.original_quantity ∘ B64.raw) <$> filter (fun e => B64.group_key e = (d, s)) data
    = B64.original_quantity <$> filter (B64.on_day d s) l.
Proof.
  induction 1 as [|r e l data He _ [IH1 IH2]]; [done|].
  pose proof (b64_group_key_on_day r e d s He) as Hk.
  apply b64_add_columns_Ok in He as (_ & Hr & Hv).
  rewrite !filter_cons.
  destruct (decide (B64.group_key e = (d, s))) as [Hg|Hg];
    destruct (decide (B64.on_day d s r)) as [Ho|Ho]; try tauto.
  rewrite !fmap_cons, IH1, IH2. simpl. rewrite Hv, Hr. done.
Qed.

Lemma b64_group_key_elem l data d s :
  Forall2 (fun r e => B64.add_columns r = Ok e) l data →
  (d, s) ∈ B64.group_key <$> data ↔ ∃ r, r ∈ l ∧ B64.on_day d s r.
Proof.
  induction 1 as [|r e l data He _ IH].
  - simpl. rewrite elem_of_nil. split; [done|]. intros (r & Hr & _).
    by apply elem_of_nil in Hr.
  - rewrite fmap_cons, elem_of_cons, IH.
    pose proof (b64_group_key_on_day r e d s He) as Hk. split.
    + intros [Heq|(r' & Hr' & Ho)].
      * exists r. split; [left|]. by apply Hk.
      * exists r'. split; [by right|done].
    + intros (r' & [->|Hr']%elem_of_cons & Ho).
      * left. symmetry. by apply Hk.
      * right. eauto.
Qed.

Lemma b64_pivot_cell_fmap data (ks : list (string * Side)) d s :
  head (filter (fun g => B64.g_date g = d ∧ B64.g_side g = s) (B64.agg_group data <$> ks))
  = if decide ((d, s) ∈ ks) then Some (B64.agg_group data (d, s)) else None.
Proof.
  induction ks as [|[d' s'] ks IH]; [done|].
  rewrite fmap_cons, filter_cons. simpl.
  destruct (decide (d' = d ∧ s' = s)) as [[-> ->]|Hne].
  - simpl. rewrite decide_True by left. done.
  - rewrite IH. destruct (decide ((d, s) ∈ ks)) as [Hin|Hin].
    + rewrite decide_True by (by right). done.
    + rewrite decide_False; [done|].
      intros [[= -> ->]|?]%elem_of_cons; tauto.
Qed.

Lemma b64_pivot_cell_groupby data d s :
  B64.pivot_cell (B64.groupby_agg data) d s
  = if decide ((d, s) ∈ B64.group_key <$> data)
    then Some (B64.agg_group data (d, s)) else None.
Proof.
  unfold B64.pivot_cell, B64.groupby_agg. rewrite b64_pivot_cell_fmap.
  destruct (decide ((d, s) ∈ B64.group_key <$> data)) as [Hin|Hin].
  - rewrite decide_True; [done|]. by apply (elem_of_sorted_unique key_le).
  - rewrite decide_False; [done|]. by rewrite (elem_of_sorted_unique key_le).
Qed.

Section b64_pivot_facts.
Variable files : list (list B64.raw_event).
Variable data : list B64.event.
Hypothesis Hdata : mapM B64.add_columns (B64.deduplicated files) = Ok data.

Let HF : Forall2 (fun r e => B64.add_columns r = Ok e) (B64.deduplicated files) data.
Proof. by apply b64_mapM_add_columns_Ok. Qed.

Lemma b64_agg_group_day d s :
  B64.total_volume (B64.agg_group data (d, s)) = B64.day_volume files d s ∧
  B64.total_liquidations (B64.agg_group data (d, s)) = B64.day_quantity files d s.
Proof.
  destruct (b64_group_members _ _ d s HF) as [H1 H2].
  unfold B64.agg_group, B64.day_volume, B64.day_quantity, B64.day_records; simpl.
  rewrite H1, H2. done.
Qed.

Lemma b64_elem_of_groupby_keys d s :
  (d, s) ∈ B64.group_key <$> data ↔ B64.day_records files d s ≠ [].
Proof.
  rewrite (b64_group_key_elem _ _ d s HF). unfold B64.day_records. split.
  - intros (r & Hr & Ho) Hnil.
    assert (r ∈ filter (B64.on_day d s) (B64.deduplicated files)) as Hin
      by (by apply list_elem_of_filter).
    rewrite Hnil in Hin. by apply elem_of_nil in Hin.
  - intros Hne.
    destruct (filter (B64.on_day d s) (B64.deduplicated files)) as [|r k] eqn:Hf; [done|].
    assert (r ∈ filter (B64.on_day d s) (B64.deduplicated files)) as Hin
      by (rewrite Hf; left).
    apply list_elem_of_filter in Hin as [? ?]. eauto.
Qed.

(** The cells of a date and side: the sums of its lines when it has lines,
    and nothing otherwise. *)
Lemma b64_pivot_cell_day d s :
  B64.pivot_cell (B64.groupby_agg data) d s
  = if decide (B64.day_records files d s = []) then None
    else Some (B64.agg_group data (d, s)).
Proof.
  rewrite b64_pivot_cell_groupby.
  destruct (decide ((d, s) ∈ B64.group_key <$> data)) as [Hin|Hin].
  - rewrite decide_False; [done|]. by apply b64_elem_of_groupby_keys.
  - rewrite decide_True; [done|].
    destruct (decide (B64.day_records files d s = [])) as [|Hne]; [done|].
    by apply b64_elem_of_groupby_keys in Hne.
Qed.

Lemma b64_elem_of_pivot_index d :
  d ∈ B64.pivot_index (B64.groupby_agg data) ↔
  ∃ r, r ∈ B64.deduplicated files ∧ convert_timestamp_to_date (B64.time r) = Ok d.
Proof.
  unfold B64.pivot_index, B64.groupby_agg.
  rewrite (elem_of_sorted_unique String.le), list_elem_of_fmap. split.
  - intros (g & -> & (k & -> & Hk)%list_elem_of_fmap).
    rewrite (elem_of_sorted_unique key_le) in Hk. destruct k as [d s]; simpl.
    apply (b64_group_key_elem _ _ d s HF) in Hk as (r & Hr & Hd & _).
    by exists r.
  - intros (r & Hr & Hd).
    exists (B64.agg_group data (d, B64.side r)). split; [done|].
    apply list_elem_of_fmap. exists (d, B64.side r). split; [done|].
    apply (elem_of_sorted_unique key_le), (b64_group_key_elem _ _ d (B64.side r) HF).
    exists r. done.
Qed.

Lemma b64_pivot_has_column_side s :
  (∀ r, r ∈ B64.deduplicated files → ∃ d, convert_timestamp_to_date (B64.time r) = Ok d) →
  B64.has_side files s → B64.pivot_has_column (B64.groupby_agg data) s = true.
Proof.
  intros Hd (r & Hr & Hs). unfold B64.pivot_has_column, B64.groupby_agg.
  rewrite bool_decide_eq_true, list_elem_of_fmap.
  destruct (Hd r Hr) as [d Hrd].
  exists (B64.agg_group data (d, s)). split; [done|].
  apply list_elem_of_fmap. exists (d, s). split; [done|].
  apply (elem_of_sorted_unique key_le), (b64_group_key_elem _ _ d s HF).
  exists r. done.
Qed.
End b64_pivot_facts.

(** When every line kept can be dated and both sides occur, the table is
    written: one line for each date, in the order of the dates. *)
Lemma b64_summarize_liquidations_Ok files :
  B64.all_dated files → B64.has_side files BUY → B64.has_side files SELL →
  ∃ data, mapM B64.add_columns (B64.deduplicated files) = Ok data ∧
          B64.summarize_liquidations files
          = Ok (B64.pivot_row (B64.groupby_agg data)
                  <$> B64.pivot_index (B64.groupby_agg data)).
Proof.
  intros Hd Hb Hs.
  assert (files ≠ []) as Hne.
  { intros ->. destruct Hb as (r & Hr & _). by apply elem_of_nil in Hr. }
  assert (Hd' : ∀ r, r ∈ B64.deduplicated files →
                     ∃ d, convert_timestamp_to_date (B64.time r) = Ok d).
  { intros r Hr. destruct (Hd r Hr) as (d & ? & _). eauto. }
  destruct (b64_mapM_add_columns_total _ Hd') as [data Hdata].
  exists data. split; [done|].
  unfold B64.summarize_liquidations. rewrite decide_False by done.
  fold (B64.deduplicated files). rewrite Hdata. simpl.
  rewrite (b64_pivot_has_column_side files data Hdata BUY Hd' Hb).
  rewrite (b64_pivot_has_column_side files data Hdata SELL Hd' Hs). simpl.
  assert (mapM to_datetime (B64.pivot_index (B64.groupby_agg data))
          = Ok (B64.pivot_index (B64.groupby_agg data))) as ->; [|done].
  apply mapM_to_datetime_Ok. split; [done|].
  intros d (r & Hr & Hconv)%(b64_elem_of_pivot_index files data Hdata).
  destruct (Hd r Hr) as (d' & Hconv' & Hbound). congruence.
Qed.

(** ** Adding and dividing zeros *)

Lemma b64_add_zero_l x : B64.add B64.zero x = B64.add x B64.zero.
Proof. by destruct x as [[]|[]| |]. Qed.

Lemma b64_mul_zero_zero : B64.mul B64.zero B64.zero = B64.zero.
Proof. done. Qed.

(** A side without volume has an average price of 0 once the pivot is
    filled, and gives NaN for the price of a date it is alone on. *)
Lemma b64_single_side_zero_volume v q :
  B64.is_zero v = true →
  let vol := B64.fillna0 (Some v) in
  let avg := B64.fillna0 (Some (B64.div v q)) in
  B64.div (B64.add (B64.mul avg vol) B64.zero) (B64.add vol B64.zero) = S754_nan.
Proof.
  destruct v as [sv| | |]; try done. intros _.
  destruct q as [sq|sq| |sq mq eq]; destruct sv; try destruct sq; done.
Qed.

(** C10, as it stands, fails in binary64 on a date that has one BUY line
    only, of quantity 1 at price 0.1: the side's volume and its average
    price are 0.1, the line's price is 0.10000000000000002, the quotient
    of the rounded product [0.1 * 0.1] by 0.1. *)
Lemma C10_counterexample :
  let files := [[B64.liquidation 1704067200000 BUY (B64.of_Z 1) (B64.tenths 1)];
                [B64.liquidation 1704153600000 SELL (B64.of_Z 1) (B64.of_Z 200)]] in
  B64.day_records files "2024-01-01" SELL = [] ∧
  B64.day_records files "2024-01-01" BUY
  = [B64.liquidation 1704067200000 BUY (B64.of_Z 1) (B64.tenths 1)] ∧
  B64.div (B64.day_volume files "2024-01-01" BUY) (B64.day_quantity files "2024-01-01" BUY)
  = B64.tenths 1 ∧
  B64.summarize_liquidations files
  = Ok [B64.table_row "2024-01-01" (B64.tenths 1) B64.zero
          (S754_finite false 7205759403792795 (-56));
        B64.table_row "2024-01-02" B64.zero (B64.of_Z 200) (B64.of_Z 200)] ∧
  B64.tenths 1 ≠ S754_finite false 7205759403792795 (-56).
Proof.
  intros files. split; [|split; [|split; [|split]]].
  - vm_compute. reflexivity.
  - vm_compute. reflexivity.
  - vm_compute. reflexivity.
  - vm_compute. reflexivity.
  - vm_compute. discriminate.
Qed.

(** C10, amended.  Take a corpus in which every line kept can be dated and
    the other side occurs on some date.  On a date whose lines are all on
    one side, the row has 0 in the other side's column and the side's
    volume in its own (0 if that sum is NaN); its price is the side's
    average price times its volume, divided by its volume again, each of
    the three operations rounded: the average price up to rounding, and
    NaN when the volume is 0. *)
Theorem C10_single_side_price files d s :
  B64.all_dated files → B64.has_side files (opposite s) →
  B64.day_records files d (opposite s) = [] → B64.day_records files d s ≠ [] →
  let vol := B64.fillna0 (Some (B64.day_volume files d s)) in
  let avg := B64.fillna0 (Some (B64.div (B64.day_volume files d s)
                                        (B64.day_quantity files d s))) in
  ∃ rows r, B64.summarize_liquidations files = Ok rows ∧ r ∈ rows ∧
            B64.row_date r = d ∧
            B64.side_column (opposite s) r = B64.zero ∧
            B64.side_column s r = vol ∧
            B64.price r = B64.div (B64.add (B64.mul avg vol) B64.zero)
                                  (B64.add vol B64.zero) ∧
            (B64.is_zero (B64.day_volume files d s) = true → B64.price r = S754_nan).
Proof.
  intros Hall Ho Hnone Hsome vol avg.
  assert (B64.has_side files s) as Hs.
  { destruct (B64.day_records files d s) as [|r k] eqn:Hf; [done|].
    assert (r ∈ B64.day_records files d s) as Hin by (rewrite Hf; left).
    apply list_elem_of_filter in Hin as [[_ Hside] Hr]. by exists r. }
  assert (∃ data, mapM B64.add_columns (B64.deduplicated files) = Ok data ∧
                  B64.summarize_liquidations files
                  = Ok (B64.pivot_row (B64.groupby_agg data)
                          <$> B64.pivot_index (B64.groupby_agg data)))
    as (data & Hdata & Hrows).
  { destruct s; by apply b64_summarize_liquidations_Ok. }
  exists (B64.pivot_row (B64.groupby_agg data) <$> B64.pivot_index (B64.groupby_agg data)),
         (B64.pivot_row (B64.groupby_agg data) d).
  split; [done|]. split.
  { apply list_elem_of_fmap. exists d. split; [done|].
    apply (b64_elem_of_pivot_index files data Hdata).
    destruct (B64.day_records files d s) as [|r k] eqn:Hf; [done|].
    assert (r ∈ B64.day_records files d s) as Hin by (rewrite Hf; left).
    apply list_elem_of_filter in Hin as [[Hd _] Hr]. by exists r. }
  split; [done|].
  pose proof (b64_pivot_cell_day files data Hdata d s) as Hcs.
  pose proof (b64_pivot_cell_day files data Hdata d (opposite s)) as Hco.
  rewrite decide_False in Hcs by done. rewrite decide_True in Hco by done.
  destruct (b64_agg_group_day files data Hdata d s) as [Hv Hq].
  assert (Hprice :
    B64.price (B64.pivot_row (B64.groupby_agg data) d)
    = B64.div (B64.add (B64.mul avg vol) B64.zero) (B64.add vol B64.zero)).
  { unfold B64.pivot_row; cbn [B64.price].
    destruct s; simpl opposite in Hco; rewrite Hcs, Hco;
      cbn [fmap option_fmap option_map];
      unfold B64.summary_average_price; rewrite Hv, Hq; fold vol avg;
      change (B64.fillna0 None) with B64.zero;
      rewrite b64_mul_zero_zero, ?b64_add_zero_l; done. }
  split; [|split; [|split; [done|]]].
  - destruct s; simpl opposite in *; unfold B64.pivot_row; cbn [B64.side_column B64.Shorts B64.Longs];
      by rewrite Hco.
  - destruct s; unfold B64.pivot_row; cbn [B64.side_column B64.Shorts B64.Longs];
      rewrite Hcs; cbn [fmap option_fmap option_map]; by rewrite Hv.
  - intros Hz. rewrite Hprice. by apply b64_single_side_zero_volume.
Qed.

Lemma C10_single_side_price_witness :
  let files := [[B64.liquidation 1704067200000 BUY (B64.of_Z 1) (B64.tenths 1)];
                [B64.liquidation 1704153600000 SELL (B64.of_Z 1) (B64.of_Z 200)]] in
  let vol := B64.fillna0 (Some (B64.day_volume files "2024-01-01" BUY)) in
  let avg := B64.fillna0 (Some (B64.div (B64.day_volume files "2024-01-01" BUY)
                                        (B64.day_quantity files "2024-01-01" BUY))) in
  ∃ rows r, B64.summarize_liquidations files = Ok rows ∧ r ∈ rows ∧
            B64.row_date r = "2024-01-01"%string ∧
            B64.side_column SELL r = B64.zero ∧
            B64.side_column BUY r = vol ∧
            B64.price r = B64.div (B64.add (B64.mul avg vol) B64.zero)
                                  (B64.add vol B64.zero) ∧
            (B64.is_zero (B64.day_volume files "2024-01-01" BUY) = true →
             B64.price r = S754_nan).
Proof.
  intros files. apply (C10_single_side_price files "2024-01-01" BUY).
  - intros r. unfold files.
    replace (B64.deduplicated _) with
      [B64.liquidation 1704067200000 BUY (B64.of_Z 1) (B64.tenths 1);
       B64.liquidation 1704153600000 SELL (B64.of_Z 1) (B64.of_Z 200)]
      by (vm_compute; reflexivity).
    rewrite !elem_of_cons, elem_of_nil.
    intros [->|[->|[]]];
      [by exists "2024-01-01"%string|by exists "2024-01-02"%string].
  - exists (B64.liquidation 1704153600000 SELL (B64.of_Z 1) (B64.of_Z 200)).
    split; [|done]. unfold files.
    replace (B64.deduplicated _) with
      [B64.liquidation 1704067200000 BUY (B64.of_Z 1) (B64.tenths 1);
       B64.liquidation 1704153600000 SELL (B64.of_Z 1) (B64.of_Z 200)]
      by (vm_compute; reflexivity).
    right. left.
  - vm_compute. reflexivity.
  - vm_compute. discriminate.
Defined.

(** * The claims about [data.py] *)

(** ** The dates to fetch *)


Lemma submitted_nil : submitted [] = ([], true).
Proof. done. Qed.




(** ** The listing *)

Lemma get_existing_files_first_page keys :
  get_existing_files keys
  = filter (fun key => endswith key ".zip" = true) (take max_keys keys).
Proof. done. Qed.

Lemma list_objects_not_truncated keys :
  IsTruncated (list_objects keys) = false → Contents (list_objects keys) = keys.
Proof.
  unfold list_objects; simpl. rewrite bool_decide_eq_false. intros Hlen.
  apply take_ge. lia.
Qed.

(** C7, as it stands, fails for 1001 published archives: the listing
    carries 1000 keys and says it is truncated; the archive of the last
    day is not among the files returned, nor its date among the dates. *)
Lemma C7_counterexample :
  let keys := published 19000 1001 in
  archive_key 20000 ∈ keys ∧
  endswith (archive_key 20000) ".zip" = true ∧
  IsTruncated (list_objects keys) = true ∧
  (archive_key 20000 ∉ get_existing_files keys) ∧
  (extract_date_from_filename (archive_key 20000)
     ∉ existing_dates (get_existing_files keys)).
Proof.
  intros keys. split; [|split; [|split; [|split]]];
    [compute_done|compute_done|compute_done|compute_done|].
  unfold existing_dates. rewrite elem_of_list_to_set. compute_done.
Qed.

(** C7, amended.  [get_existing_files] reads one reply of the listing: it
    returns the [.zip] keys among the first 1000 keys of the prefix.  When
    that reply is not truncated, every published archive is returned and
    every published date is among the dates. *)
Theorem C7_single_listing_reply keys :
  get_existing_files keys
  = filter (fun key => endswith key ".zip" = true) (take max_keys keys) ∧
  (IsTruncated (list_objects keys) = false →
   ∀ key, key ∈ keys → endswith key ".zip" = true →
          key ∈ get_existing_files keys ∧
          (extract_date_from_filename key) ∈ existing_dates (get_existing_files keys)).
Proof.
  split; [done|]. intros Hfull key Hkey Hzip.
  assert (key ∈ get_existing_files keys) as Hin.
  { unfold get_existing_files. rewrite (list_objects_not_truncated _ Hfull).
    by apply list_elem_of_filter. }
  split; [done|]. unfold existing_dates.
  apply elem_of_list_to_set, list_elem_of_fmap. eauto.
Qed.

Lemma C7_single_listing_reply_witness :
  let keys := published 19723 3 ++ [archive_key 19723 +:+ ".CHECKSUM"] in
  archive_key 19725 ∈ get_existing_files keys ∧
  (extract_date_from_filename (archive_key 19725))
    ∈ existing_dates (get_existing_files keys).
Proof.
  intros keys.
  apply (proj2 (C7_single_listing_reply keys)); compute_done.
Defined.

(** ** One download *)

Lemma get_checked_Raise reply e :
  get_checked reply = Raise e → is_RequestException e = true.
Proof.
  destruct reply as [|status body]; simpl; [by intros [= <-]|].
  destruct (_ && _); [by intros [= <-]|done].
Qed.

Section download.
Variable remote : string → http_reply.
Variables symbol market base_extract_to : string.
Variable date : Z.
Variable w : world.

Let url := url_of symbol (strftime_Ymd date) market.
Let extract_to := path_join (path_join base_extract_to symbol) market.
Let run := download_and_extract_zip remote symbol date market base_extract_to w.

(** A request that fails is reported and changes no file. *)
Lemma download_failed e :
  get_checked (remote url) = Raise e →
  run = (Ok (), {| files := files w;
                   stdout := stdout w ++ [Failed_to_download url e] |}).
Proof.
  intros He. unfold run, download_and_extract_zip, download_then_extract.
  fold url. rewrite He. by rewrite (get_checked_Raise _ _ He).
Qed.

Lemma extract_failed body fs :
  get_checked (remote url) = Ok body →
  unzip body extract_to (files w) = (Raise BadZipFile, fs) →
  run = (Ok (), {| files := fs;
                   stdout := stdout w ++ [Failed_to_extract url BadZipFile] |}).
Proof.
  unfold run, download_and_extract_zip, download_then_extract. fold url extract_to.
  by intros -> ->.
Qed.

Lemma extracted body fs :
  get_checked (remote url) = Ok body →
  unzip body extract_to (files w) = (Ok (), fs) →
  run = (Ok (), {| files := fs; stdout := stdout w |}).
Proof.
  unfold run, download_and_extract_zip, download_then_extract. fold url extract_to.
  by intros -> ->.
Qed.

(** An exception of the extraction that neither [except] clause names
    leaves the function; nothing is printed. *)
Lemma extract_escapes body fs e :
  get_checked (remote url) = Ok body →
  unzip body extract_to (files w) = (Raise e, fs) →
  is_RequestException e = false → e ≠ BadZipFile →
  run = (Raise e, {| files := fs; stdout := stdout w |}).
Proof.
  unfold run, download_and_extract_zip, download_then_extract. fold url extract_to.
  intros -> -> -> He. by rewrite decide_False.
Qed.
End download.

(** C3, as it stands, fails for an archive whose one member does not pass
    the CRC check: the member's file has been created at its final place
    when [BadZipFile] is caught, and the next scan counts its date as held. *)
Lemma C3_counterexample :
  let name := csv_of_day "BTCUSDT" 19723 in
  let body := Zip [{| arcname := name; member := BadCRC "" |}] in
  let run := download_and_extract_zip (serving (Response 200 body))
               "BTCUSDT" 19723 "um" "./data" empty_world in
  run.1 = Ok () ∧
  stdout run.2 = [Failed_to_extract (url_of "BTCUSDT" "2024-01-01" "um") BadZipFile] ∧
  files run.2 !! ("./data/BTCUSDT/um"%string, name) = Some ""%string ∧
  get_local_dates (files empty_world) "./data" "BTCUSDT" "um" = ∅ ∧
  get_local_dates (files run.2) "./data" "BTCUSDT" "um" = {["2024-01-01"%string]}.
Proof.
  intros name body run. split; [|split; [|split; [|split]]]; compute_done.
Qed.

(** C3, amended.  A payload that is no archive at all is rejected when it
    is opened, before any member is copied out: the failure is reported,
    no file is created or changed, and the local dates are as before. *)
Theorem C3_not_an_archive remote symbol date market base_extract_to w :
  get_checked (remote (url_of symbol (strftime_Ymd date) market)) = Ok NotZip →
  let run := download_and_extract_zip remote symbol date market base_extract_to w in
  run.1 = Ok () ∧
  stdout run.2 = stdout w ++
    [Failed_to_extract (url_of symbol (strftime_Ymd date) market) BadZipFile] ∧
  files run.2 = files w ∧
  get_local_dates (files run.2) base_extract_to symbol market
  = get_local_dates (files w) base_extract_to symbol market.
Proof.
  intros Hget run. unfold run.
  rewrite (extract_failed _ _ _ _ _ _ NotZip (files w) Hget); done.
Qed.

Lemma C3_not_an_archive_witness :
  let held := csv_of_day "BTCUSDT" 19722 in
  let w := {| files := {[ ("./data/BTCUSDT/um"%string, held) := "time,side"%string ]};
              stdout := [] |} in
  let run := download_and_extract_zip (serving (Response 200 NotZip))
               "BTCUSDT" 19723 "um" "./data" w in
  run.1 = Ok () ∧
  stdout run.2 = stdout w ++
    [Failed_to_extract (url_of "BTCUSDT" (strftime_Ymd 19723) "um") BadZipFile] ∧
  files run.2 = files w ∧
  get_local_dates (files run.2) "./data" "BTCUSDT" "um"
  = get_local_dates (files w) "./data" "BTCUSDT" "um".
Proof.
  intros held w run.
  apply (C3_not_an_archive (serving (Response 200 NotZip)) "BTCUSDT" 19723 "um" "./data" w).
  reflexivity.
Defined.

(** C4, as it stands, fails twice.  A member whose compressed data is
    garbled makes [zlib.error] leave the function; and the value returned
    after a download that failed with status 404 is the value returned
    after a download that worked, [None] in both cases. *)
Lemma C4_counterexample :
  let name := csv_of_day "BTCUSDT" 19723 in
  let fetch reply :=
    download_and_extract_zip (serving reply) "BTCUSDT" 19723 "um" "./data" empty_world in
  (fetch (Response 200 (Zip [{| arcname := name; member := BadStream "" |}]))).1
  = Raise zlib_error ∧
  (fetch (Response 404 NotZip)).1 = Ok () ∧
  (fetch (Response 200 (Zip [{| arcname := name; member := Intact "time,side" |}]))).1
  = Ok ().
Proof. intros name fetch. split; [|split]; compute_done. Qed.

(** C4, amended.  The function returns [None] after a download that worked
    and after a failure it handles, and tells them apart on standard output
    only: a request that failed, a 404 among them, prints [Failed to
    download] and changes no file; an archive that [zipfile] refuses with
    [BadZipFile] prints [Failed to extract]; a download that worked prints
    nothing.  An exception of the extraction that is no [BadZipFile]
    ([zlib.error], [RuntimeError], [NotImplementedError]) leaves the
    function, with nothing printed and the files written so far in place. *)
Theorem C4_failures_are_printed remote symbol date market base_extract_to w :
  let url := url_of symbol (strftime_Ymd date) market in
  let extract_to := path_join (path_join base_extract_to symbol) market in
  let run := download_and_extract_zip remote symbol date market base_extract_to w in
  (∀ body, get_checked (Response 404 body) = Raise (HTTPError 404)) ∧
  (∀ e, get_checked (remote url) = Raise e →
        is_RequestException e = true ∧ run.1 = Ok () ∧ files run.2 = files w ∧
        stdout run.2 = stdout w ++ [Failed_to_download url e]) ∧
  (∀ body fs, get_checked (remote url) = Ok body →
        unzip body extract_to (files w) = (Raise BadZipFile, fs) →
        run.1 = Ok () ∧ files run.2 = fs ∧
        stdout run.2 = stdout w ++ [Failed_to_extract url BadZipFile]) ∧
  (∀ body fs, get_checked (remote url) = Ok body →
        unzip body extract_to (files w) = (Ok (), fs) →
        run.1 = Ok () ∧ files run.2 = fs ∧ stdout run.2 = stdout w) ∧
  (∀ body fs e, get_checked (remote url) = Ok body →
        unzip body extract_to (files w) = (Raise e, fs) →
        e ∈ [zlib_error; RuntimeError; NotImplementedError] →
        run.1 = Raise e ∧ files run.2 = fs ∧ stdout run.2 = stdout w).
Proof.
  intros url extract_to run. split; [done|]. split; [|split; [|split]].
  - intros e He. split; [by apply (get_checked_Raise _ _ He)|].
    unfold run. by rewrite (download_failed _ _ _ _ _ _ e He).
  - intros body fs Hget Hzip. unfold run.
    by rewrite (extract_failed _ _ _ _ _ _ body fs Hget Hzip).
  - intros body fs Hget Hzip. unfold run.
    by rewrite (extracted _ _ _ _ _ _ body fs Hget Hzip).
  - intros body fs e Hget Hzip He. unfold run.
    rewrite (extract_escapes _ _ _ _ _ _ body fs e Hget Hzip); [done|..];
      rewrite !elem_of_cons, elem_of_nil in He;
      destruct He as [->|[->|[->|[]]]]; done.
Qed.

Lemma C4_failures_are_printed_witness :
  let url := url_of "BTCUSDT" (strftime_Ymd 19723) "um" in
  let name := csv_of_day "BTCUSDT" 19723 in
  let fetch reply :=
    download_and_extract_zip (serving reply) "BTCUSDT" 19723 "um" "./data" empty_world in
  ((fetch (Response 404 NotZip)).1 = Ok () ∧
   stdout (fetch (Response 404 NotZip)).2 = [Failed_to_download url (HTTPError 404)]) ∧
  ((fetch (Response 200 NotZip)).1 = Ok () ∧
   stdout (fetch (Response 200 NotZip)).2 = [Failed_to_extract url BadZipFile]) ∧
  ((fetch (Response 200 (Zip [{| arcname := name; member := Intact "time,side" |}]))).1
   = Ok () ∧
   stdout (fetch (Response 200 (Zip [{| arcname := name;
                                       member := Intact "time,side" |}]))).2 = []) ∧
  ((fetch (Response 200 (Zip [{| arcname := name; member := Unopened Encrypted |}]))).1
   = Raise RuntimeError ∧
   stdout (fetch (Response 200 (Zip [{| arcname := name;
                                       member := Unopened Encrypted |}]))).2 = []).
Proof.
  intros url name fetch. split; [|split; [|split]].
  - destruct (C4_failures_are_printed (serving (Response 404 NotZip))
                "BTCUSDT" 19723 "um" "./data" empty_world)
      as (_ & Hdown & _).
    destruct (Hdown (HTTPError 404) eq_refl) as (_ & Hres & _ & Hout). by split.
  - destruct (C4_failures_are_printed (serving (Response 200 NotZip))
                "BTCUSDT" 19723 "um" "./data" empty_world)
      as (_ & _ & Hbad & _).
    destruct (Hbad NotZip ∅ eq_refl eq_refl) as (Hres & _ & Hout). by split.
  - destruct (C4_failures_are_printed
                (serving (Response 200 (Zip [{| arcname := name;
                                               member := Intact "time,side" |}])))
                "BTCUSDT" 19723 "um" "./data" empty_world)
      as (_ & _ & _ & Hok & _).
    destruct (Hok _ _ eq_refl eq_refl) as (Hres & _ & Hout). by split.
  - destruct (C4_failures_are_printed
                (serving (Response 200 (Zip [{| arcname := name;
                                               member := Unopened Encrypted |}])))
                "BTCUSDT" 19723 "um" "./data" empty_world)
      as (_ & _ & _ & _ & Hesc).
    destruct (Hesc _ ∅ RuntimeError eq_refl eq_refl) as (Hres & _ & Hout).
    + right. left.
    + by split.
Defined.

(** * Further properties of [data.py] *)

(** ** Text *)

Lemma string_app_cons a (s1 s2 : string) : String a s1 +:+ s2 = String a (s1 +:+ s2).
Proof. reflexivity. Qed.

Lemma string_app_nil_l (s : string) : "" +:+ s = s.
Proof. reflexivity. Qed.

Lemma string_app_nil_r (s : string) : s +:+ "" = s.
Proof. induction s as [|a s IH]; [done|]. by rewrite string_app_cons, IH. Qed.

Lemma string_app_assoc (s1 s2 s3 : string) : (s1 +:+ s2) +:+ s3 = s1 +:+ (s2 +:+ s3).
Proof. induction s1 as [|a s1 IH]; [done|]. by rewrite !string_app_cons, IH. Qed.

Lemma prefix_nil (s : string) : String.prefix "" s = true.
Proof. by destruct s. Qed.

Lemma prefix_cons a p b s :
  String.prefix (String a p) (String b s) = bool_decide (a = b) && String.prefix p s.
Proof. simpl. destruct (ascii_dec a b); by case_bool_decide. Qed.

Lemma prefix_app (p s : string) : String.prefix p (p +:+ s) = true.
Proof.
  induction p as [|a p IH]; [apply prefix_nil|].
  rewrite string_app_cons, prefix_cons, IH. by rewrite bool_decide_eq_true_2.
Qed.

Lemma occurs_tail sep a s : occurs sep (String a s) = false → occurs sep s = false.
Proof. simpl. by intros [_ ?]%orb_false_iff. Qed.

Lemma occurs_head sep s : occurs sep s = false → String.prefix sep s = false.
Proof. destruct s; simpl; by intros [? _]%orb_false_iff. Qed.

Lemma split_from_cons sep piece a s :
  split_from sep 0 piece (String a s)
  = if String.prefix sep (String a s)
    then piece :: split_from sep (String.length sep - 1) "" s
    else split_from sep 0 (piece +:+ String a "") s.
Proof. reflexivity. Qed.

(** Without an occurrence of the separator there is one piece. *)
Lemma split_from_no_occurrence sep piece s :
  occurs sep s = false → split_from sep 0 piece s = [piece +:+ s].
Proof.
  revert piece. induction s as [|a s IH]; intros piece Hocc.
  - simpl. by rewrite string_app_nil_r.
  - rewrite split_from_cons, (occurs_head _ _ Hocc).
    rewrite IH by (by eapply occurs_tail). by rewrite string_app_assoc.
Qed.

(** Up to the first occurrence of a separator of one character. *)
Lemma head_split_char c piece d rest :
  occurs (String c "") d = false →
  head (split_from (String c "") 0 piece (d +:+ String c rest)) = Some (piece +:+ d).
Proof.
  revert piece. induction d as [|a d IH]; intros piece Hocc.
  - rewrite string_app_nil_l, split_from_cons, prefix_cons, prefix_nil.
    rewrite bool_decide_eq_true_2 by done. simpl. by rewrite string_app_nil_r.
  - pose proof (occurs_head _ _ Hocc) as Hp.
    rewrite string_app_cons, split_from_cons.
    rewrite prefix_cons, prefix_nil, andb_true_r in Hp |- *. rewrite Hp.
    rewrite IH by (by eapply occurs_tail). by rewrite string_app_assoc.
Qed.

(** After the last occurrence of a separator of one character. *)
Lemma last_split_char c piece before s :
  occurs (String c "") s = false →
  last (split_from (String c "") 0 piece (before +:+ String c s)) = Some s.
Proof.
  intros Hocc. revert piece. induction before as [|a before IH]; intros piece.
  - rewrite string_app_nil_l, split_from_cons, prefix_cons, prefix_nil.
    rewrite bool_decide_eq_true_2 by done. simpl.
    by rewrite (split_from_no_occurrence _ _ _ Hocc).
  - rewrite string_app_cons, split_from_cons.
    destruct (String.prefix _ _); [|apply IH].
    simpl Nat.sub. rewrite last_cons, IH. done.
Qed.

Lemma split_from_skip sep k piece a s :
  split_from sep (S k) piece (String a s) = split_from sep k piece s.
Proof. reflexivity. Qed.

Lemma occurs_cons sep a s :
  occurs sep (String a s) = String.prefix sep (String a s) || occurs sep s.
Proof. reflexivity. Qed.

Lemma occurs_char_app c (u v : string) : occurs (String c "") (u +:+ String c v) = true.
Proof.
  induction u as [|a u IH].
  - rewrite string_app_nil_l, occurs_cons, prefix_cons, prefix_nil.
    by rewrite bool_decide_eq_true_2.
  - rewrite string_app_cons, occurs_cons, IH. apply orb_true_r.
Qed.

Lemma inside_sep_step k a ahead :
  inside_sep (S k) (String a ahead) → inside_sep k ahead.
Proof.
  intros [?|(u & v & Hu & Hsep & Hlen & Hpre)]; [done|].
  destruct k as [|k]; [by left|]. right.
  destruct v as [|c v]; [done|].
  rewrite prefix_cons in Hpre. apply andb_true_iff in Hpre as [_ Hpre].
  exists (u +:+ String c ""), v. split; [by destruct u|].
  split; [by rewrite string_app_assoc|]. split; [by injection Hlen|done].
Qed.

(** The letter l opens [snapshot_sep] and occurs nowhere else in it, so an
    occurrence cannot start inside another one. *)
Lemma inside_sep_start k t : inside_sep k (snapshot_sep +:+ t) → k = 0%nat.
Proof.
  intros [?|(u & v & Hu & Hsep & Hlen & Hpre)]; [done|].
  destruct v as [|c v]; [by rewrite <- Hlen|]. exfalso.
  unfold snapshot_sep in Hpre at 1. rewrite string_app_cons, prefix_cons in Hpre.
  apply andb_true_iff in Hpre as [Hc _]. apply bool_decide_eq_true in Hc as ->.
  destruct u as [|x u]; [done|].
  unfold snapshot_sep in Hsep. rewrite string_app_cons in Hsep.
  injection Hsep as _ Hsep.
  pose proof (occurs_char_app "l" u v) as Hocc. rewrite <- Hsep in Hocc.
  by vm_compute in Hocc.
Qed.

Lemma split_from_at_sep piece t :
  split_from snapshot_sep 0 piece (snapshot_sep +:+ t)
  = piece :: split_from snapshot_sep 0 "" t.
Proof.
  unfold snapshot_sep. rewrite !string_app_cons, string_app_nil_l, split_from_cons.
  match goal with
  | |- context [String.prefix ?p ?s] =>
      replace (String.prefix p s) with true by (symmetry; exact (prefix_app p t))
  end.
  simpl String.length. simpl Nat.sub. by rewrite !split_from_skip.
Qed.

(** After the last occurrence of [snapshot_sep]. *)
Lemma last_split_snapshot before t k piece :
  occurs snapshot_sep t = false → inside_sep k (before +:+ snapshot_sep +:+ t) →
  last (split_from snapshot_sep k piece (before +:+ snapshot_sep +:+ t)) = Some t.
Proof.
  intros Hocc. revert k piece. induction before as [|a before IH]; intros k piece Hin.
  - rewrite string_app_nil_l in Hin |- *. apply inside_sep_start in Hin as ->.
    rewrite split_from_at_sep, (split_from_no_occurrence _ _ _ Hocc). done.
  - rewrite string_app_cons in Hin |- *. destruct k as [|k].
    + rewrite split_from_cons.
      destruct (String.prefix snapshot_sep _) eqn:Hpre; [|apply IH; by left].
      rewrite last_cons, IH; [done|]. right.
      unfold snapshot_sep in Hpre at 1. rewrite prefix_cons in Hpre.
      apply andb_true_iff in Hpre as [_ Hpre].
      exists "l"%string, "iquidationSnapshot-"%string. done.
    + rewrite split_from_skip. apply IH. by eapply inside_sep_step.
Qed.

Lemma has_char_app c (s1 s2 : string) :
  has_char c (s1 +:+ s2) = has_char c s1 || has_char c s2.
Proof.
  induction s1 as [|a s1 IH]; [done|].
  rewrite string_app_cons. simpl. by rewrite IH, orb_assoc.
Qed.

Lemma occurs_char c s : occurs (String c "") s = has_char c s.
Proof.
  induction s as [|a s IH]; [done|].
  rewrite occurs_cons, prefix_cons, prefix_nil, andb_true_r, IH. done.
Qed.

(** A text without the first character of the separator has no occurrence
    of it. *)
Lemma occurs_no_first_char c sep s :
  has_char c s = false → occurs (String c sep) s = false.
Proof.
  induction s as [|a s IH]; [done|]. simpl has_char.
  intros [Hc Hs]%orb_false_iff.
  rewrite occurs_cons, prefix_cons, Hc, IH by done. done.
Qed.

(** ** The date in a file name *)

Lemma extract_date_from_filename_eq filename :
  extract_date_from_filename filename
  = default "" (head (split "." (default "" (last (split snapshot_sep filename))))).
Proof. reflexivity. Qed.

Lemma extract_date_after_sep before d ext :
  has_char "." d = false → occurs snapshot_sep (d +:+ "." +:+ ext) = false →
  extract_date_from_filename (before +:+ snapshot_sep +:+ d +:+ "." +:+ ext) = d.
Proof.
  intros Hdot Hocc. rewrite extract_date_from_filename_eq. unfold split.
  rewrite (last_split_snapshot before _ 0 "" Hocc) by (by left). simpl default.
  change ("." +:+ ext) with (String "." ext).
  rewrite head_split_char by (by rewrite occurs_char). done.
Qed.

(** A text with no dot and no [snapshot_sep] has no date part: it comes back
    whole. *)
Lemma extract_date_plain s :
  has_char "." s = false → occurs snapshot_sep s = false →
  extract_date_from_filename s = s.
Proof.
  intros Hdot Hocc. rewrite extract_date_from_filename_eq. unfold split.
  rewrite (split_from_no_occurrence _ _ _ Hocc). simpl.
  rewrite split_from_no_occurrence by (by rewrite occurs_char). done.
Qed.

(** ** The text of a date *)

Lemma digit_in_digits n : digit n ∈ digits.
Proof.
  unfold digit.
  assert (Z.to_nat (n mod 10) < 10)%nat as Hlt.
  { pose proof (Z.mod_pos_bound n 10). lia. }
  generalize dependent (Z.to_nat (n mod 10)). intros k Hlt.
  do 10 (destruct k as [|k]; [compute_done|]). lia.
Qed.

Lemma has_char_cons_ne c a s : c ≠ a → has_char c (String a s) = has_char c s.
Proof. intros Hne. simpl. by rewrite bool_decide_eq_false_2. Qed.

Lemma has_char_digit c n s :
  c ∉ digits → has_char c (String (digit n) s) = has_char c s.
Proof.
  intros Hc. simpl. rewrite bool_decide_eq_false_2; [done|].
  intros ->. apply Hc, digit_in_digits.
Qed.

(** A date text holds digits and hyphens only. *)
Lemma has_char_strftime_Ymd c days :
  c ∉ digits → c ≠ "-"%char → has_char c (strftime_Ymd days) = false.
Proof.
  intros Hc Hh. unfold strftime_Ymd. destruct (civil_from_days days) as [[y m] d].
  unfold year_text, pad4, pad2. repeat case_match;
    rewrite !string_app_cons, !string_app_nil_l;
    repeat (first [rewrite has_char_digit by done|rewrite has_char_cons_ne by done]);
    done.
Qed.

(** ** Reversal, suffixes and paths *)

Lemma rev_app_app (s acc : string) : String.rev_app s acc = String.rev s +:+ acc.
Proof.
  unfold String.rev. revert acc. induction s as [|a s IH]; intros acc; [done|].
  simpl. rewrite IH, (IH (String a "")), string_app_assoc. done.
Qed.

Lemma rev_app_r (s1 s2 : string) : String.rev (s1 +:+ s2) = String.rev s2 +:+ String.rev s1.
Proof.
  induction s1 as [|a s1 IH].
  - by rewrite string_app_nil_l, string_app_nil_r.
  - rewrite string_app_cons. unfold String.rev at 1 3. simpl.
    rewrite !rev_app_app, IH, string_app_assoc. done.
Qed.

Lemma endswith_app (s suffix : string) : endswith (s +:+ suffix) suffix = true.
Proof. unfold endswith. rewrite rev_app_r. apply prefix_app. Qed.

Lemma prefix_char_rev_app c (s acc : string) :
  String.prefix (String c "") (String.rev_app s acc) = true →
  (s = EmptyString ∧ String.prefix (String c "") acc = true) ∨
  ∃ s', s = s' +:+ String c "".
Proof.
  revert acc. induction s as [|a s IH]; intros acc Hpre; [by left|]. right.
  simpl in Hpre. apply IH in Hpre as [[-> Hpre]|[s' ->]].
  - rewrite prefix_cons in Hpre. apply andb_true_iff in Hpre as [Hc _].
    apply bool_decide_eq_true in Hc as ->. by exists ""%string.
  - by exists (String a s').
Qed.

Lemma endswith_char_inv c (s : string) :
  endswith s (String c "") = true → ∃ s', s = s' +:+ String c "".
Proof.
  unfold endswith, String.rev. simpl String.rev_app at 1.
  intros [[_ Hpre]|?]%prefix_char_rev_app; [|done]. by destruct c.
Qed.

(** [os.path.basename] gives back the name [os.path.join] put last. *)
Lemma basename_path_join dir name :
  has_char "/" name = false → basename (path_join dir name) = name.
Proof.
  intros Hname. unfold basename, path_join, split.
  assert (occurs "/" name = false) as Hocc by (by rewrite occurs_char).
  destruct (String.prefix "/" name) eqn:Hpre.
  { destruct name as [|a name]; [done|]. rewrite prefix_cons in Hpre.
    apply andb_true_iff in Hpre as [<-%bool_decide_eq_true _]. done. }
  destruct (bool_decide (dir = EmptyString)) eqn:Hdir; simpl orb.
  { apply bool_decide_eq_true in Hdir as ->.
    rewrite string_app_nil_l, (split_from_no_occurrence _ _ _ Hocc). done. }
  destruct (endswith dir "/") eqn:Hend.
  - apply endswith_char_inv in Hend as [dir' ->].
    rewrite string_app_assoc, string_app_cons, string_app_nil_l.
    by rewrite last_split_char.
  - change ("/" +:+ name) with (String "/" name). by rewrite last_split_char.
Qed.

(** ** The local dates *)

Lemma elem_of_get_local_dates (fs : filesystem) (base_path symbol market d : string) :
  d ∈ get_local_dates fs base_path symbol market ↔
  ∃ name, is_Some (fs !! (path_join (path_join base_path symbol) market, name)) ∧
          matches_csv name = true ∧
          extract_date_from_filename
            (basename (path_join (path_join (path_join base_path symbol) market) name)) = d.
Proof.
  unfold get_local_dates, glob_csv.
  rewrite elem_of_list_to_set, list_elem_of_fmap. split.
  - intros (path & -> & ([dir name] & -> & [[Hdir Hm] Hk]%list_elem_of_filter)
                          %list_elem_of_fmap).
    simpl in *. subst dir. apply elem_of_elements, elem_of_dom in Hk.
    by exists name.
  - intros (name & Hk & Hm & <-).
    eexists. split; [done|]. apply list_elem_of_fmap.
    exists (path_join (path_join base_path symbol) market, name). split; [done|].
    apply list_elem_of_filter. split; [done|].
    by apply elem_of_elements, elem_of_dom.
Qed.

Lemma get_local_dates_mono (fs1 fs2 : filesystem) (base_path symbol market : string) :
  dom fs1 ⊆ dom fs2 →
  get_local_dates fs1 base_path symbol market ⊆ get_local_dates fs2 base_path symbol market.
Proof.
  intros Hdom d. rewrite !elem_of_get_local_dates.
  intros (name & Hk & Hrest). exists name. split; [|done].
  apply elem_of_dom, Hdom, elem_of_dom, Hk.
Qed.

(** ** What a download does to the files *)

Lemma extractall_dom (members : list zip_member) (dir : string) (fs : filesystem) :
  dom fs ⊆ dom (extractall members dir fs).2.
Proof.
  revert fs. induction members as [|m rest IH]; intros fs; simpl; [done|].
  destruct (member m); simpl; [etrans; [|apply IH]| | |done];
    rewrite dom_insert; set_solver.
Qed.

Lemma extractall_other_dir (members : list zip_member) (dir : string) (fs : filesystem) (dir' name : string) :
  dir' ≠ dir → (extractall members dir fs).2 !! (dir', name) = fs !! (dir', name).
Proof.
  intros Hne. revert fs. induction members as [|m rest IH]; intros fs; simpl; [done|].
  destruct (member m); simpl; [rewrite IH| | |done];
    apply lookup_insert_ne; congruence.
Qed.

Lemma extractall_intact (members : list zip_member) (dir : string) (fs : filesystem) :
  Forall intact members →
  (extractall members dir fs).1 = Ok () ∧
  ∀ m, m ∈ members → is_Some ((extractall members dir fs).2 !! (dir, arcname m)).
Proof.
  intros Hall. revert fs. induction Hall as [|m rest [content Hm] _ IH]; intros fs; simpl.
  - split; [done|]. intros m Hin. by apply elem_of_nil in Hin.
  - rewrite Hm. destruct (IH (<[(dir, arcname m):=content]> fs)) as [Hok Hrest].
    split; [done|]. intros m' [->|Hin]%elem_of_cons; [|by apply Hrest].
    apply elem_of_dom, (extractall_dom rest dir), elem_of_dom.
    rewrite lookup_insert_eq. by eexists.
Qed.

Lemma download_files remote symbol date market base_extract_to w :
  files (download_and_extract_zip remote symbol date market base_extract_to w).2
  = match get_checked (remote (url_of symbol (strftime_Ymd date) market)) with
    | Ok body =>
        (unzip body (path_join (path_join base_extract_to symbol) market) (files w)).2
    | Raise _ => files w
    end.
Proof.
  unfold download_and_extract_zip, download_then_extract.
  destruct (get_checked _) as [body|e] eqn:Hget.
  - destruct (unzip body _ (files w)) as [[[]|e] fs]; [done|].
    destruct (is_RequestException e); [done|]. by destruct (decide (e = BadZipFile)).
  - by rewrite (get_checked_Raise _ _ Hget).
Qed.

Lemma unzip_dom (body : payload) (dir : string) (fs : filesystem) : dom fs ⊆ dom (unzip body dir fs).2.
Proof. destruct body; simpl; [done|apply extractall_dom]. Qed.

Lemma unzip_other_dir (body : payload) (dir : string) (fs : filesystem) (dir' name : string) :
  dir' ≠ dir → (unzip body dir fs).2 !! (dir', name) = fs !! (dir', name).
Proof. destruct body; simpl; [done|apply extractall_other_dir]. Qed.

(** ** Further theorems about [data.py] *)

(** X1.  In a name of the form [<before>liquidationSnapshot-<date>.<ext>],
    whatever stands before the marker, [extract_date_from_filename] gives
    [<date>], provided the date holds no dot and the marker does not occur
    again after it. *)
Theorem X1_extract_date_after_marker before d ext :
  has_char "." d = false → occurs "liquidationSnapshot-" (d +:+ "." +:+ ext) = false →
  extract_date_from_filename (before +:+ "liquidationSnapshot-" +:+ d +:+ "." +:+ ext) = d.
Proof. apply extract_date_after_sep. Qed.

Lemma X1_extract_date_after_marker_witness :
  extract_date_from_filename
    ("data/futures/um/daily/liquidationSnapshot/BTCUSDT/BTCUSDT-"
     +:+ "liquidationSnapshot-" +:+ "2024-01-01" +:+ "." +:+ "zip.CHECKSUM")
  = "2024-01-01"%string.
Proof. apply X1_extract_date_after_marker; reflexivity. Defined.

(** X2.  Without the marker nothing fails: the name comes back up to its
    first dot, so a stray [notes.csv] counts as the date [notes]. *)
Theorem X2_extract_date_without_marker d ext :
  has_char "." d = false → occurs "liquidationSnapshot-" (d +:+ "." +:+ ext) = false →
  extract_date_from_filename (d +:+ "." +:+ ext) = d.
Proof.
  intros Hdot Hocc. rewrite extract_date_from_filename_eq. unfold split.
  rewrite (split_from_no_occurrence _ _ _ Hocc). cbn [last default].
  rewrite string_app_nil_l. unfold id.
  change ("." +:+ ext) with (String "." ext).
  rewrite head_split_char by (by rewrite occurs_char). done.
Qed.

Lemma X2_extract_date_without_marker_witness :
  extract_date_from_filename ("notes" +:+ "." +:+ "csv") = "notes"%string.
Proof. apply X2_extract_date_without_marker; reflexivity. Defined.

(** X3.  The date read back from the URL a download asks for is the text of
    the date the download was given, for every symbol, market and date. *)
Theorem X3_date_of_download_url symbol market date :
  extract_date_from_filename (url_of symbol (strftime_Ymd date) market)
  = strftime_Ymd date.
Proof.
  unfold url_of.
  set (before := "https://data.binance.vision/data/futures/" +:+ market
                 +:+ "/daily/liquidationSnapshot/" +:+ symbol +:+ "/" +:+ symbol +:+ "-").
  transitivity (extract_date_from_filename
                  (before +:+ snapshot_sep +:+ strftime_Ymd date +:+ "." +:+ "zip")).
  { f_equal. unfold before. by rewrite !string_app_assoc. }
  apply extract_date_after_sep.
  - apply has_char_strftime_Ymd; [compute_done|done].
  - apply occurs_no_first_char. rewrite has_char_app.
    rewrite has_char_strftime_Ymd; [done|compute_done|done].
Qed.

(** X4.  [get_existing_files] returns keys of the store in their order,
    only keys that end in [.zip], and never more than 1000 of them. *)
Theorem X4_existing_files_are_archives keys :
  get_existing_files keys `sublist_of` keys ∧
  Forall (fun key => endswith key ".zip" = true) (get_existing_files keys) ∧
  (length (get_existing_files keys) ≤ 1000)%nat.
Proof.
  unfold get_existing_files, list_objects; simpl. split; [|split].
  - etrans; [apply sublist_filter|apply sublist_take].
  - apply Forall_forall. by intros key [? _]%list_elem_of_filter.
  - etrans; [apply length_filter|]. rewrite length_take. unfold max_keys. lia.
Qed.



(** X6.  A download never removes a file: whatever the server answers,
    every file held before is held after, and so is every local date, of
    every symbol and market. *)
Theorem X6_download_keeps_files remote symbol date market base_extract_to w :
  let after := (download_and_extract_zip remote symbol date market base_extract_to w).2 in
  dom (files w) ⊆ dom (files after) ∧
  ∀ base_path symbol' market' : string,
    get_local_dates (files w) base_path symbol' market'
    ⊆ get_local_dates (files after) base_path symbol' market'.
Proof.
  intros after.
  assert (dom (files w) ⊆ dom (files after)) as Hdom.
  { unfold after. rewrite download_files.
    destruct (get_checked _); [apply unzip_dom|done]. }
  split; [done|]. intros. by apply get_local_dates_mono.
Qed.

(** ** A download that worked *)

Lemma csv_of_day_parts symbol day :
  csv_of_day symbol day
  = (symbol +:+ "-") +:+ snapshot_sep +:+ strftime_Ymd day +:+ "." +:+ "csv".
Proof. unfold csv_of_day. by rewrite string_app_assoc. Qed.

Lemma extract_date_csv_of_day symbol day :
  extract_date_from_filename (csv_of_day symbol day) = strftime_Ymd day.
Proof.
  rewrite csv_of_day_parts. apply extract_date_after_sep.
  - apply has_char_strftime_Ymd; [compute_done|done].
  - apply occurs_no_first_char. rewrite has_char_app.
    rewrite has_char_strftime_Ymd; [done|compute_done|done].
Qed.

Lemma has_char_csv_of_day c symbol day :
  has_char c symbol = false → c ∉ digits → has_char c "-liquidationSnapshot-.csv" = false →
  has_char c (csv_of_day symbol day) = false.
Proof.
  intros Hs Hd Hc. unfold csv_of_day. rewrite !has_char_app, Hs.
  rewrite has_char_strftime_Ymd; [|done|by intros ->].
  change "-liquidationSnapshot-.csv"%string with ("-liquidationSnapshot-" +:+ ".csv") in Hc.
  rewrite has_char_app in Hc. apply orb_false_iff in Hc as [-> ->]. done.
Qed.

Lemma matches_csv_csv_of_day symbol day :
  String.prefix "." symbol = false → matches_csv (csv_of_day symbol day) = true.
Proof.
  intros Hdot. unfold matches_csv. apply andb_true_iff. split.
  - unfold csv_of_day. rewrite <- !string_app_assoc. apply endswith_app.
  - apply negb_true_iff. unfold csv_of_day. destruct symbol as [|a symbol]; [done|].
    rewrite string_app_cons. rewrite prefix_cons in Hdot |- *.
    rewrite prefix_nil in *. by rewrite andb_true_r in Hdot |- *.
Qed.

(** X8.  When the server answers with an archive whose members all come out
    whole, one of them named [<symbol>-liquidationSnapshot-<date>.csv], the
    download returns without a message and the next scan finds the date:
    it is not among the dates to fetch, whatever the listing says.  (The
    symbol holds no slash and does not start with a dot, and the path of
    the directory holds nothing that [glob] reads as a pattern.) *)
Theorem X8_fetched_date_is_local remote symbol date market base_extract_to w members :
  has_char "/" symbol = false → String.prefix "." symbol = false →
  has_magic (path_join (path_join base_extract_to symbol) market) = false →
  get_checked (remote (url_of symbol (strftime_Ymd date) market)) = Ok (Zip members) →
  Forall intact members →
  (∃ m, m ∈ members ∧ arcname m = csv_of_day symbol date) →
  let run := download_and_extract_zip remote symbol date market base_extract_to w in
  run.1 = Ok () ∧ stdout run.2 = stdout w ∧
  strftime_Ymd date ∈ get_local_dates (files run.2) base_extract_to symbol market ∧
  ∀ listed : gset string,
    strftime_Ymd date
      ∉ listed ∖ get_local_dates (files run.2) base_extract_to symbol market.
Proof.
  intros Hslash Hdot _ Hget Hall (m & Hm & Hname) run.
  set (dir := path_join (path_join base_extract_to symbol) market).
  destruct (extractall_intact members dir (files w) Hall) as [Hok Hheld].
  destruct (extractall members dir (files w)) as [res fs] eqn:Hext.
  simpl in Hok, Hheld. subst res.
  assert (run = (Ok (), {| files := fs; stdout := stdout w |})) as ->.
  { unfold run. by apply (extracted _ _ _ _ _ _ (Zip members) fs). }
  simpl.
  assert (strftime_Ymd date ∈ get_local_dates fs base_extract_to symbol market) as Hin.
  { apply elem_of_get_local_dates. exists (csv_of_day symbol date).
    split; [rewrite <- Hname; by apply Hheld|].
    split; [by apply matches_csv_csv_of_day|].
    rewrite basename_path_join; [apply extract_date_csv_of_day|].
    apply has_char_csv_of_day; [done|compute_done|done]. }
  repeat split; [done|]. intros listed.
  by intros [_ Hn]%elem_of_difference.
Qed.

Lemma X8_fetched_date_is_local_witness :
  let body := Zip [{| arcname := csv_of_day "BTCUSDT" 19723; member := Intact "time,side" |}] in
  let run := download_and_extract_zip (serving (Response 200 body))
               "BTCUSDT" 19723 "um" "./data" empty_world in
  run.1 = Ok () ∧ stdout run.2 = stdout empty_world ∧
  strftime_Ymd 19723 ∈ get_local_dates (files run.2) "./data" "BTCUSDT" "um" ∧
  ∀ listed : gset string,
    strftime_Ymd 19723
      ∉ listed ∖ get_local_dates (files run.2) "./data" "BTCUSDT" "um".
Proof.
  intros body run.
  apply (X8_fetched_date_is_local (serving (Response 200 body)) "BTCUSDT" 19723 "um"
           "./data" empty_world
           [{| arcname := csv_of_day "BTCUSDT" 19723; member := Intact "time,side" |}]).
  - reflexivity.
  - reflexivity.
  - reflexivity.
  - reflexivity.
  - constructor; [by eexists|constructor].
  - eexists. split; [left|reflexivity].
Defined.

(** * Further properties of [summary.py] *)

(** ** The date of a timestamp *)

Ltac calendar :=
  unfold civil_from_days; cbn [fst snd];
  repeat match goal with
         | |- context [?a <? ?b] => destruct (Z.ltb_spec a b)
         | |- context [?a <=? ?b] => destruct (Z.leb_spec a b)
         end;
  repeat match goal with |- _ → _ => intros ? end;
  Z.to_euclidean_division_equations; lia.

(** Day -354285 is 1000-01-01. *)
Lemma civil_from_days_year_1000 z : -354285 ≤ z → 1000 ≤ (civil_from_days z).1.1.
Proof. intros Hz. calendar. Qed.

(** The days of the years 1 to 9999. *)
Lemma civil_from_days_datetime z :
  1 ≤ (civil_from_days z).1.1 ≤ 9999 → -719162 ≤ z ≤ 2932896.
Proof. calendar. Qed.

Lemma civil_from_days_year z :
  (z + 719468) / 146097 * 400 ≤ (civil_from_days z).1.1
  ≤ (z + 719468) / 146097 * 400 + 401.
Proof. calendar. Qed.

Lemma convert_timestamp_to_date_Ok t d :
  convert_timestamp_to_date t = Ok d ↔
  1 ≤ (civil_from_days (t / 86400000)).1.1 ≤ 9999 ∧ d = strftime_Ymd (t / 86400000).
Proof.
  unfold convert_timestamp_to_date.
  change (2 ^ 63) with 9223372036854775808.
  change (2 ^ 31) with 2147483648.
  pose proof (civil_from_days_datetime (t / 86400000)) as Hz.
  destruct (civil_from_days (t / 86400000)) as [[y m] d'] eqn:Hc. cbn [fst] in *.
  destruct (Z.leb_spec 1 y), (Z.leb_spec y 9999); cbn [andb].
  - rewrite (proj2 (andb_true_iff _ _)); cbn [negb].
    2:{ split; [apply Z.leb_le|apply Z.ltb_lt]; Z.to_euclidean_division_equations; lia. }
    rewrite (proj2 (andb_true_iff _ _)); cbn [negb].
    2:{ split; [apply Z.leb_le|apply Z.ltb_lt]; lia. }
    split; [intros [= <-]; split; [lia|done]|]. by intros [_ ->].
  - split; [|lia]. repeat case_match; done.
  - split; [|lia]. repeat case_match; done.
  - split; [|lia]. repeat case_match; done.
Qed.

(** A 64-bit timestamp is within what [time_t] and [tm_year] hold: the one
    exception it can meet is the [ValueError] of the year. *)
Lemma convert_timestamp_to_date_int64 t e :
  int64 t → convert_timestamp_to_date t = Raise e → e = ValueError_year_out_of_range.
Proof.
  unfold int64, convert_timestamp_to_date.
  change (2 ^ 63) with 9223372036854775808.
  change (2 ^ 31) with 2147483648.
  intros Ht.
  pose proof (civil_from_days_year (t / 86400000)) as Hy.
  destruct (civil_from_days (t / 86400000)) as [[y m] d]. cbn [fst] in Hy.
  rewrite (proj2 (andb_true_iff _ _)); cbn [negb].
  2:{ split; [apply Z.leb_le|apply Z.ltb_lt]; Z.to_euclidean_division_equations; lia. }
  rewrite (proj2 (andb_true_iff (_ <=? y - 1900) _)); cbn [negb].
  2:{ split; [apply Z.leb_le|apply Z.ltb_lt]; Z.to_euclidean_division_equations; lia. }
  destruct (_ && _); [done|]. by intros [= <-].
Qed.

Lemma mapM_add_columns_int64 l x :
  (∀ r, r ∈ l → int64 (time r)) → mapM add_columns l = Raise x →
  x = ValueError_year_out_of_range.
Proof.
  induction l as [|r l IH]; intros Hint; [done|]. rewrite mapM_add_columns_cons.
  destruct (add_columns r) as [e|y] eqn:He; simpl.
  - destruct (mapM add_columns l) as [k|y]; simpl; [done|].
    intros [= <-]. apply IH; [|done]. intros r' Hr'. apply Hint. by right.
  - intros [= <-]. unfold add_columns in He.
    destruct (convert_timestamp_to_date (time r)) as [d|y'] eqn:Hc; [done|].
    injection He as <-. apply (convert_timestamp_to_date_int64 (time r)); [|done].
    apply Hint. left.
Qed.

(** ** When the call raises *)

Lemma elem_of_concat {A} (x : A) (ls : list (list A)) :
  x ∈ concat ls ↔ ∃ l, l ∈ ls ∧ x ∈ l.
Proof.
  induction ls as [|l ls IH]; simpl.
  - split; [by intros ?%elem_of_nil|]. by intros (l & ?%elem_of_nil & _).
  - rewrite elem_of_app, IH. split.
    + intros [?|(l' & ? & ?)]; [exists l; split; [left|done]|].
      exists l'. split; [by right|done].
    + intros (l' & [->|?]%elem_of_cons & ?); [by left|]. right. eauto.
Qed.

(** X10.  When every line can be dated but no line of the corpus is a BUY,
    the call raises [KeyError('Average Buy Price')]; when there are BUY
    lines but no SELL line, it raises [KeyError('Average Sell Price')].  No
    table is written in either case. *)
Theorem X10_missing_side_raises files :
  files ≠ [] →
  (∀ r, r ∈ deduplicated files → ∃ d, convert_timestamp_to_date (time r) = Ok d) →
  (¬ has_side files BUY →
   summarize_liquidations files = Raise (KeyError "Average Buy Price")) ∧
  (has_side files BUY → ¬ has_side files SELL →
   summarize_liquidations files = Raise (KeyError "Average Sell Price")).
Proof.
  intros Hne Hd. unfold summarize_liquidations. rewrite decide_False by done.
  fold (deduplicated files).
  destruct (mapM_add_columns_total _ Hd) as [data Hdata]. rewrite Hdata. simpl.
  pose proof (pivot_has_column_side files data Hdata BUY) as Hb.
  pose proof (pivot_has_column_side files data Hdata SELL) as Hs.
  split.
  - intros Hno. rewrite <- Hb, not_true_iff_false in Hno. by rewrite Hno.
  - intros Hbuy Hno. apply Hb in Hbuy. rewrite <- Hs, not_true_iff_false in Hno.
    by rewrite Hbuy, Hno.
Qed.

Lemma X10_missing_side_raises_witness :
  summarize_liquidations [[liquidation 1704067200000 SELL 1 200]]
  = Raise (KeyError "Average Buy Price") ∧
  summarize_liquidations [[liquidation 1704067200000 BUY 2 100]]
  = Raise (KeyError "Average Sell Price").
Proof.
  split.
  - apply (X10_missing_side_raises [[liquidation 1704067200000 SELL 1 200]]); [done| |].
    + intros r [->|[]%elem_of_nil]%elem_of_cons. by exists "2024-01-01"%string.
    + intros (r & [->|[]%elem_of_nil]%elem_of_cons & Hs). discriminate Hs.
  - apply (X10_missing_side_raises [[liquidation 1704067200000 BUY 2 100]]); [done| | |].
    + intros r [->|[]%elem_of_nil]%elem_of_cons. by exists "2024-01-01"%string.
    + exists (liquidation 1704067200000 BUY 2 100). split; [left|done].
    + intros (r & [->|[]%elem_of_nil]%elem_of_cons & Hs). discriminate Hs.
Defined.

(** X11.  With the 64-bit timestamps of the column [time], one line whose
    timestamp [datetime] cannot hold (a year after 9999, as a timestamp in
    microseconds gives) makes the whole call raise [ValueError]: the line
    is not skipped and no table is written. *)
Theorem X11_undatable_line_raises files file r e :
  (∀ file r, file ∈ files → r ∈ file → int64 (time r)) →
  file ∈ files → r ∈ file → convert_timestamp_to_date (time r) = Raise e →
  summarize_liquidations files = Raise ValueError_year_out_of_range.
Proof.
  intros Hint Hfile Hr He. unfold summarize_liquidations.
  rewrite decide_False by (intros ->; by apply elem_of_nil in Hfile).
  destruct (mapM add_columns (drop_duplicates (concat files))) as [data|x] eqn:Hl.
  - destruct (mapM_add_columns_elem _ _ r Hl) as [d Hd]; [|congruence].
    apply elem_of_drop_duplicates, elem_of_concat. eauto.
  - apply mapM_add_columns_int64 in Hl as ->; [done|].
    intros r' (file' & ? & ?)%elem_of_drop_duplicates%elem_of_concat. eauto.
Qed.

Lemma X11_undatable_line_raises_witness :
  summarize_liquidations
    [[liquidation 1704067200000 BUY 2 100; liquidation 1704153600000000 SELL 1 200]]
  = Raise ValueError_year_out_of_range.
Proof.
  apply (X11_undatable_line_raises _
           [liquidation 1704067200000 BUY 2 100; liquidation 1704153600000000 SELL 1 200]
           (liquidation 1704153600000000 SELL 1 200) ValueError_year_out_of_range).
  - intros file r [->|[]%elem_of_nil]%elem_of_cons.
    rewrite !elem_of_cons, elem_of_nil. unfold int64.
    intros [->|[->|[]]]; simpl; lia.
  - left.
  - right. left.
  - reflexivity.
Defined.

(** X12.  A table that is written has a line for a date exactly when some
    line of some file falls on that date. *)
Theorem X12_one_row_per_date_with_lines files rows d :
  summarize_liquidations files = Ok rows →
  (∃ row, row ∈ rows ∧ row_date row = d) ↔
  (∃ file r, file ∈ files ∧ r ∈ file ∧ convert_timestamp_to_date (time r) = Ok d).
Proof.
  intros (_ & _ & _ & _ & _ & _ & _ & Hidx)%summarize_liquidations_Ok_inv.
  split.
  - intros (row & Hrow & <-).
    assert (row_date row ∈ row_date <$> rows) as Hin
      by (apply list_elem_of_fmap; eauto).
    apply Hidx in Hin as (r & Hr & Hconv).
    apply elem_of_drop_duplicates, elem_of_concat in Hr as (file & Hfile & Hr). eauto.
  - intros (file & r & Hfile & Hr & Hconv).
    assert (d ∈ row_date <$> rows) as Hin.
    { apply Hidx. exists r. split; [|done].
      apply elem_of_drop_duplicates, elem_of_concat. eauto. }
    apply list_elem_of_fmap in Hin as (row & -> & Hrow). eauto.
Qed.

Lemma X12_one_row_per_date_with_lines_witness :
  let files := [[liquidation 1704067200000 BUY 2 100];
                [liquidation 1704153600000 SELL 1 200]] in
  let rows := [table_row "2024-01-01" 200 0 (Fin (Qc_of_Z 100));
               table_row "2024-01-02" 0 200 (Fin (Qc_of_Z 200))] in
  (∃ row, row ∈ rows ∧ row_date row = "2024-01-02"%string) ↔
  (∃ file r, file ∈ files ∧ r ∈ file ∧
             convert_timestamp_to_date (time r) = Ok "2024-01-02"%string).
Proof.
  intros files rows. apply (X12_one_row_per_date_with_lines files rows). compute_done.
Defined.

(** ** The text of the date of a timestamp *)

(** X16.  A timestamp has a date exactly when the midnight (UTC) before it
    has one, and then the same date, also before 1970; a date that is given
    is a text of digits and hyphens only, and of ten characters from the
    year 1000 on. *)
Theorem X16_date_of_timestamp :
  (∀ day ms d, 0 ≤ ms < 86400000 →
     convert_timestamp_to_date (day * 86400000 + ms) = Ok d ↔
     convert_timestamp_to_date (day * 86400000) = Ok d) ∧
  (∀ t d, convert_timestamp_to_date t = Ok d →
     (∀ c, c ∉ digits → c ≠ "-"%char → has_char c d = false) ∧
     (-30610224000000 ≤ t → String.length d = 10%nat)).
Proof.
  split.
  - intros day ms d Hms. rewrite !convert_timestamp_to_date_Ok.
    replace ((day * 86400000 + ms) / 86400000) with day
      by (apply Z.div_unique with ms; lia).
    replace (day * 86400000 / 86400000) with day
      by (apply Z.div_unique with 0; lia).
    done.
  - intros t d [Hy ->]%convert_timestamp_to_date_Ok. split.
    + intros c. apply has_char_strftime_Ymd.
    + intros Ht.
      assert (-354285 ≤ t / 86400000) as Hz
        by (Z.to_euclidean_division_equations; lia).
      apply civil_from_days_year_1000 in Hz. unfold strftime_Ymd.
      destruct (civil_from_days (t / 86400000)) as [[y m] d]. cbn [fst] in *.
      unfold year_text. rewrite !(proj2 (Z.ltb_ge _ _)) by lia. done.
Qed.

Lemma X16_date_of_timestamp_witness :
  (convert_timestamp_to_date (-1 * 86400000 + 86399999) = Ok "1969-12-31"%string ↔
   convert_timestamp_to_date (-1 * 86400000) = Ok "1969-12-31"%string) ∧
  String.length "1969-12-31" = 10%nat.
Proof.
  split.
  - apply (proj1 X16_date_of_timestamp). lia.
  - apply (proj2 X16_date_of_timestamp (-1)); [reflexivity|lia].
Defined.

(** * Further properties of a download *)

(** ** What an archive leaves behind *)

Lemma extractall_other_name (members : list zip_member) (dir : string)
    (fs : filesystem) (name : string) :
  (∀ m, m ∈ members → arcname m ≠ name) →
  (extractall members dir fs).2 !! (dir, name) = fs !! (dir, name).
Proof.
  revert fs. induction members as [|m rest IH]; intros fs Hname; simpl; [done|].
  assert (arcname m ≠ name) as Hm by (apply Hname; left).
  destruct (member m); simpl;
    [rewrite IH by (intros m' ?; apply Hname; by right)| | |done];
    apply lookup_insert_ne; congruence.
Qed.

Lemma extractall_app_intact (before rest : list zip_member) (dir : string)
    (fs : filesystem) :
  Forall intact before →
  extractall (before ++ rest) dir fs = extractall rest dir (extractall before dir fs).2.
Proof.
  intros Hall. revert fs. induction Hall as [|m before [content Hm] _ IH]; intros fs.
  - done.
  - simpl. rewrite Hm. apply IH.
Qed.

Lemma extractall_content (members : list zip_member) (dir : string) (fs : filesystem)
    (m : zip_member) (content : string) :
  Forall intact members → NoDup (arcname <$> members) →
  m ∈ members → member m = Intact content →
  (extractall members dir fs).2 !! (dir, arcname m) = Some content.
Proof.
  intros Hall. revert fs. induction Hall as [|m0 rest [c0 Hm0] _ IH]; intros fs Hnd Hin Hm.
  - by apply elem_of_nil in Hin.
  - rewrite fmap_cons in Hnd. apply NoDup_cons in Hnd as [Hfresh Hnd].
    simpl. rewrite Hm0. apply elem_of_cons in Hin as [->|Hin].
    + rewrite extractall_other_name, lookup_insert_eq; [congruence|].
      intros m' Hm' Heq. apply Hfresh. rewrite <- Heq.
      apply list_elem_of_fmap. eauto.
    + by apply IH.
Qed.

(** X17.  An archive that fails the CRC check at a member is reported as
    [Failed to extract], and what was copied out before stays: the files of
    the members in front of the failing one and the file of the failing
    member itself.  No other file of the directory is touched; the members
    behind are not copied out. *)
Theorem X17_partial_extraction_stays remote symbol date market base_extract_to w
    (before after : list zip_member) (m : zip_member) (written : string) :
  get_checked (remote (url_of symbol (strftime_Ymd date) market))
  = Ok (Zip (before ++ m :: after)) →
  Forall intact before → member m = BadCRC written →
  let dir := path_join (path_join base_extract_to symbol) market in
  let run := download_and_extract_zip remote symbol date market base_extract_to w in
  run.1 = Ok () ∧
  stdout run.2 = stdout w ++
    [Failed_to_extract (url_of symbol (strftime_Ymd date) market) BadZipFile] ∧
  (∀ m', m' ∈ before → is_Some (files run.2 !! (dir, arcname m'))) ∧
  files run.2 !! (dir, arcname m) = Some written ∧
  (∀ name : string, (∀ m', m' ∈ before ++ [m] → arcname m' ≠ name) →
                    files run.2 !! (dir, name) = files w !! (dir, name)).
Proof.
  intros Hget Hall Hm dir run.
  set (fs1 := (extractall before dir (files w)).2).
  assert (unzip (Zip (before ++ m :: after)) dir (files w)
          = (Raise BadZipFile, <[(dir, arcname m) := written]> fs1)) as Hunzip.
  { simpl. rewrite (extractall_app_intact _ _ _ _ Hall). simpl. by rewrite Hm. }
  assert (run = (Ok (), {| files := <[(dir, arcname m) := written]> fs1;
                           stdout := stdout w ++
                             [Failed_to_extract (url_of symbol (strftime_Ymd date) market)
                                BadZipFile] |})) as ->.
  { unfold run. by apply (extract_failed _ _ _ _ _ _ (Zip (before ++ m :: after))). }
  simpl. split; [done|]. split; [done|]. split; [|split].
  - intros m' Hm'. destruct (extractall_intact before dir (files w) Hall) as [_ Hheld].
    destruct (decide ((dir, arcname m') = (dir, arcname m))) as [->|Hne].
    + rewrite lookup_insert_eq. by eexists.
    + rewrite lookup_insert_ne by done. by apply Hheld.
  - apply lookup_insert_eq.
  - intros name Hname.
    rewrite lookup_insert_ne by (intros [= Heq]; apply (Hname m); [set_solver|done]).
    apply extractall_other_name. intros m' Hm'. apply Hname. set_solver.
Qed.

Lemma X17_partial_extraction_stays_witness :
  let good := {| arcname := csv_of_day "BTCUSDT" 19723; member := Intact "time,side" |} in
  let bad := {| arcname := csv_of_day "BTCUSDT" 19724; member := BadCRC "" |} in
  let run := download_and_extract_zip (serving (Response 200 (Zip [good; bad])))
               "BTCUSDT" 19723 "um" "./data" empty_world in
  run.1 = Ok () ∧
  is_Some (files run.2 !! ("./data/BTCUSDT/um"%string, arcname good)) ∧
  files run.2 !! ("./data/BTCUSDT/um"%string, arcname bad) = Some ""%string.
Proof.
  intros good bad run.
  destruct (X17_partial_extraction_stays (serving (Response 200 (Zip [good; bad])))
              "BTCUSDT" 19723 "um" "./data" empty_world [good] [] bad "")
    as (Hres & _ & Hbefore & Hbad & _).
  - reflexivity.
  - constructor; [by eexists|constructor].
  - reflexivity.
  - split; [done|]. split; [|done]. apply Hbefore. left.
Defined.

(** X18.  After a download that worked, each file named by a member holds
    that member's content, whatever it held before (member names being
    distinct), and every other file of the directory is as it was. *)
Theorem X18_extracted_content remote symbol date market base_extract_to w
    (members : list zip_member) :
  get_checked (remote (url_of symbol (strftime_Ymd date) market)) = Ok (Zip members) →
  Forall intact members → NoDup (arcname <$> members) →
  let dir := path_join (path_join base_extract_to symbol) market in
  let run := download_and_extract_zip remote symbol date market base_extract_to w in
  run.1 = Ok () ∧ stdout run.2 = stdout w ∧
  (∀ m content, m ∈ members → member m = Intact content →
                files run.2 !! (dir, arcname m) = Some content) ∧
  (∀ name : string, (∀ m, m ∈ members → arcname m ≠ name) →
                    files run.2 !! (dir, name) = files w !! (dir, name)).
Proof.
  intros Hget Hall Hnd dir run.
  destruct (extractall_intact members dir (files w) Hall) as [Hok _].
  pose proof (extractall_content members dir (files w)) as Hcontent.
  pose proof (extractall_other_name members dir (files w)) as Hother.
  destruct (extractall members dir (files w)) as [res fs] eqn:Hext.
  simpl in Hok, Hcontent, Hother. subst res.
  assert (run = (Ok (), {| files := fs; stdout := stdout w |})) as ->.
  { unfold run. by apply (extracted _ _ _ _ _ _ (Zip members) fs). }
  simpl. split; [done|]. split; [done|]. split.
  - intros m content Hm Hc. by apply Hcontent.
  - intros name Hname. by apply Hother.
Qed.

Lemma X18_extracted_content_witness :
  let m := {| arcname := csv_of_day "BTCUSDT" 19723; member := Intact "time,side" |} in
  let w := {| files := {[ ("./data/BTCUSDT/um"%string, csv_of_day "BTCUSDT" 19723)
                          := "old"%string ]};
              stdout := [] |} in
  let run := download_and_extract_zip (serving (Response 200 (Zip [m])))
               "BTCUSDT" 19723 "um" "./data" w in
  files run.2 !! ("./data/BTCUSDT/um"%string, csv_of_day "BTCUSDT" 19723)
  = Some "time,side"%string.
Proof.
  intros m w run.
  destruct (X18_extracted_content (serving (Response 200 (Zip [m])))
              "BTCUSDT" 19723 "um" "./data" w [m])
    as (_ & _ & Hcontent & _).
  - reflexivity.
  - constructor; [by eexists|constructor].
  - compute_done.
  - apply (Hcontent m "time,side"); [left|reflexivity].
Defined.

(** * Further properties of [get_new_data] *)

Lemma download_dom remote symbol date market base_extract_to w :
  dom (files w)
  ⊆ dom (files (download_and_extract_zip remote symbol date market base_extract_to w).2).
Proof.
  rewrite download_files. destruct (get_checked _); [apply unzip_dom|done].
Qed.

Lemma run_job_dom remote symbol market base_extract_to collected w day :
  dom (files w) ⊆ dom (files (run_job remote symbol market base_extract_to collected w day)).
Proof.
  unfold run_job.
  pose proof (download_dom remote symbol day market base_extract_to w) as Hdom.
  destruct (download_and_extract_zip _ _ _ _ _ _) as [[[]|e] w']; [done|].
  by destruct collected.
Qed.

Lemma run_jobs_dom remote symbol market base_extract_to collected jobs w :
  dom (files w)
  ⊆ dom (files (foldl (run_job remote symbol market base_extract_to collected) w jobs)).
Proof.
  revert w. induction jobs as [|day jobs IH]; intros w; [done|]. simpl.
  etrans; [apply (run_job_dom remote symbol market base_extract_to collected w day)|].
  apply IH.
Qed.

(** X22.  [get_new_data] never removes a file, whether it returns or
    raises: every file held before the call is held after it, and so is
    every local date, of every symbol and market. *)
Theorem X22_new_data_keeps_files (iteration : gset string → list string)
    (remote : string → http_reply) (keys : list string)
    (symbol market base_extract_to : string) (w : world) :
  let after := (get_new_data iteration remote keys symbol market base_extract_to w).2 in
  dom (files w) ⊆ dom (files after) ∧
  ∀ base_path symbol' market' : string,
    get_local_dates (files w) base_path symbol' market'
    ⊆ get_local_dates (files after) base_path symbol' market'.
Proof.
  intros after.
  assert (dom (files w) ⊆ dom (files after)) as Hdom.
  { unfold after, get_new_data. destruct (submitted _) as [jobs complete]. simpl.
    apply run_jobs_dom. }
  split; [done|]. intros. by apply get_local_dates_mono.
Qed.

Lemma download_stdout remote symbol date market base_extract_to w :
  stdout w `prefix_of`
  stdout (download_and_extract_zip remote symbol date market base_extract_to w).2.
Proof.
  unfold download_and_extract_zip.
  destruct (download_then_extract _ _ _) as [[[]|e] fs]; simpl; [done|].
  destruct (is_RequestException e); [by apply prefix_app_r|].
  destruct (decide (e = BadZipFile)); [by apply prefix_app_r|done].
Qed.

Lemma run_job_stdout remote symbol market base_extract_to collected w day :
  stdout w `prefix_of` stdout (run_job remote symbol market base_extract_to collected w day).
Proof.
  unfold run_job.
  pose proof (download_stdout remote symbol day market base_extract_to w) as Hout.
  destruct (download_and_extract_zip _ _ _ _ _ _) as [[[]|e] w']; [done|].
  destruct collected; [|done]. simpl. etrans; [done|]. by apply prefix_app_r.
Qed.

Lemma run_jobs_stdout remote symbol market base_extract_to collected jobs w :
  stdout w `prefix_of`
  stdout (foldl (run_job remote symbol market base_extract_to collected) w jobs).
Proof.
  revert w. induction jobs as [|day jobs IH]; intros w; [done|]. simpl.
  etrans; [apply (run_job_stdout remote symbol market base_extract_to collected w day)|].
  apply IH.
Qed.

(** X23.  What [get_new_data] prints comes after what was printed before;
    and an exception that leaves a download does not leave [get_new_data]:
    with the archive of one day listed whose member is garbled, the call
    returns that day and prints [Error occurred] with the [zlib.error]. *)
Theorem X23_new_data_reports_errors (iteration : gset string → list string)
    (remote : string → http_reply) (keys : list string)
    (symbol market base_extract_to : string) (w : world) :
  stdout w `prefix_of`
    stdout (get_new_data iteration remote keys symbol market base_extract_to w).2 ∧
  let garbled := Zip [{| arcname := csv_of_day "BTCUSDT" 19723;
                         member := BadStream "" |}] in
  let run := get_new_data elements (serving (Response 200 garbled)) (published 19723 1)
               "BTCUSDT" "um" "./data" empty_world in
  run.1 = Ok {[ "2024-01-01"%string ]} ∧ stdout run.2 = [Error_occurred zlib_error].
Proof.
  split.
  - unfold get_new_data. destruct (submitted _) as [jobs complete]. simpl.
    apply run_jobs_stdout.
  - split; vm_compute; reflexivity.
Qed.

(** * Further properties of [summary.py] in binary64 *)

Lemma b64_mapM_add_columns_elem l data r :
  mapM B64.add_columns l = Ok data → r ∈ l →
  ∃ d, convert_timestamp_to_date (B64.time r) = Ok d.
Proof.
  rewrite b64_mapM_add_columns_Ok. intros HF [i Hi]%list_elem_of_lookup_1.
  destruct (Forall2_lookup_l _ _ _ _ _ HF Hi) as (e & _ & He).
  apply b64_add_columns_Ok in He as [He _]. eauto.
Qed.

Lemma b64_pivot_has_column_inv files data s :
  mapM B64.add_columns (B64.deduplicated files) = Ok data →
  B64.pivot_has_column (B64.groupby_agg data) s = true → B64.has_side files s.
Proof.
  intros Hdata. unfold B64.pivot_has_column, B64.groupby_agg.
  rewrite bool_decide_eq_true, list_elem_of_fmap.
  intros (g & -> & (k & -> & Hk)%list_elem_of_fmap).
  rewrite (elem_of_sorted_unique key_le) in Hk. destruct k as [d s']; simpl.
  apply b64_mapM_add_columns_Ok in Hdata.
  apply (b64_group_key_elem _ _ d s' Hdata) in Hk as (r & Hr & _ & Hs).
  by exists r.
Qed.

(** A date and side without lines has the sums of no lines, which are 0. *)
Lemma b64_pivot_row_day_row files data d :
  mapM B64.add_columns (B64.deduplicated files) = Ok data →
  B64.pivot_row (B64.groupby_agg data) d = B64.day_row files d.
Proof.
  intros Hdata.
  assert (Hcell : ∀ s,
    B64.fillna0 (B64.total_volume <$> B64.pivot_cell (B64.groupby_agg data) d s)
    = B64.fillna0 (Some (B64.day_volume files d s)) ∧
    B64.fillna0 (B64.summary_average_price <$> B64.pivot_cell (B64.groupby_agg data) d s)
    = B64.day_average_price files d s).
  { intros s. rewrite (b64_pivot_cell_day files data Hdata d s).
    destruct (b64_agg_group_day files data Hdata d s) as [Hv Hq].
    unfold B64.day_average_price.
    destruct (decide (B64.day_records files d s = [])) as [Hnil|Hne].
    - unfold B64.day_volume, B64.day_quantity. rewrite Hnil. done.
    - cbn [fmap option_fmap option_map]. unfold B64.summary_average_price.
      by rewrite Hv, Hq. }
  unfold B64.pivot_row, B64.day_row.
  destruct (Hcell BUY) as [-> ->]. destruct (Hcell SELL) as [-> ->]. done.
Qed.

Lemma b64_summarize_liquidations_Ok_inv files rows :
  B64.summarize_liquidations files = Ok rows →
  files ≠ [] ∧ B64.has_side files BUY ∧ B64.has_side files SELL ∧
  rows = B64.day_row files <$> (B64.row_date <$> rows) ∧
  Sorted (strict String.le) (B64.row_date <$> rows) ∧
  NoDup (B64.row_date <$> rows) ∧
  (∀ d, d ∈ B64.row_date <$> rows ↔ B64.has_date files d).
Proof.
  unfold B64.summarize_liquidations. case_decide as Hne; [done|].
  fold (B64.deduplicated files).
  destruct (mapM B64.add_columns (B64.deduplicated files)) as [data|x] eqn:Hdata;
    simpl; [|done].
  destruct (B64.pivot_has_column (B64.groupby_agg data) BUY) eqn:Hb; simpl; [|done].
  destruct (B64.pivot_has_column (B64.groupby_agg data) SELL) eqn:Hs; simpl; [|done].
  destruct (mapM to_datetime (B64.pivot_index (B64.groupby_agg data)))
    as [index|x] eqn:Hindex; simpl; [|done].
  apply mapM_to_datetime_Ok in Hindex as [-> Hbounds].
  intros [= <-].
  assert (Hidx : B64.row_date <$> (B64.pivot_row (B64.groupby_agg data)
                                     <$> B64.pivot_index (B64.groupby_agg data))
                 = B64.pivot_index (B64.groupby_agg data)).
  { rewrite <- list_fmap_compose. apply list_fmap_id. }
  rewrite Hidx. split; [done|].
  split; [by apply (b64_pivot_has_column_inv files data)|].
  split; [by apply (b64_pivot_has_column_inv files data)|].
  split; [|split; [|split]].
  - apply list_fmap_ext. intros _ d _. by apply b64_pivot_row_day_row.
  - apply (Sorted_strict_sorted_unique String.le).
  - apply (NoDup_sorted_unique String.le).
  - intros d. apply (b64_elem_of_pivot_index files data Hdata).
Qed.

(** X19.  In binary64 as well, the two lines of C1 give the
    single line [{2024-01-01, Shorts 200, Longs 200, price 150}], and each
    line of a written table carries the BUY volume of its date under
    [Shorts], the SELL volume under [Longs] (the compensated sums of the
    lines kept, in their order) and as price the mean of the two sides'
    average prices weighted by those volumes, each operation rounded. *)
Theorem X19_binary64_weighted_price :
  B64.summarize_liquidations
    [[B64.liquidation 1704067200000 BUY (B64.of_Z 2) (B64.of_Z 100);
      B64.liquidation 1704153599999 SELL (B64.of_Z 1) (B64.of_Z 200)]]
  = Ok [B64.table_row "2024-01-01" (B64.of_Z 200) (B64.of_Z 200) (B64.of_Z 150)] ∧
  ∀ files rows r,
    B64.summarize_liquidations files = Ok rows → r ∈ rows →
    B64.Shorts r = B64.fillna0 (Some (B64.day_volume files (B64.row_date r) BUY)) ∧
    B64.Longs r = B64.fillna0 (Some (B64.day_volume files (B64.row_date r) SELL)) ∧
    B64.price r
    = B64.div
        (B64.add (B64.mul (B64.day_average_price files (B64.row_date r) BUY) (B64.Shorts r))
                 (B64.mul (B64.day_average_price files (B64.row_date r) SELL) (B64.Longs r)))
        (B64.add (B64.Shorts r) (B64.Longs r)).
Proof.
  split; [vm_compute; reflexivity|].
  intros files rows r (_ & _ & _ & Hrows & _)%b64_summarize_liquidations_Ok_inv Hr.
  rewrite Hrows in Hr. apply list_elem_of_fmap in Hr as (d & -> & _). done.
Qed.

Lemma X19_binary64_weighted_price_witness :
  let files := [[B64.liquidation 1704067200000 BUY (B64.of_Z 2) (B64.of_Z 100);
                 B64.liquidation 1704153599999 SELL (B64.of_Z 1) (B64.of_Z 200)]] in
  let r := B64.table_row "2024-01-01" (B64.of_Z 200) (B64.of_Z 200) (B64.of_Z 150) in
  B64.Shorts r = B64.fillna0 (Some (B64.day_volume files (B64.row_date r) BUY)) ∧
  B64.Longs r = B64.fillna0 (Some (B64.day_volume files (B64.row_date r) SELL)) ∧
  B64.price r
  = B64.div
      (B64.add (B64.mul (B64.day_average_price files (B64.row_date r) BUY) (B64.Shorts r))
               (B64.mul (B64.day_average_price files (B64.row_date r) SELL) (B64.Longs r)))
      (B64.add (B64.Shorts r) (B64.Longs r)).
Proof.
  intros files r.
  apply (proj2 X19_binary64_weighted_price files [r] r); [vm_compute; reflexivity|left].
Defined.

(** X20.  In binary64 as well, the lines of a written table are strictly
    ascending by date, no date occurs twice, and a date has a line exactly
    when some line of some file falls on it. *)
Theorem X20_binary64_rows_by_date files rows :
  B64.summarize_liquidations files = Ok rows →
  Sorted date_lt (B64.row_date <$> rows) ∧ NoDup (B64.row_date <$> rows) ∧
  ∀ d, (∃ row, row ∈ rows ∧ B64.row_date row = d) ↔
       (∃ file r, file ∈ files ∧ r ∈ file ∧
                  convert_timestamp_to_date (B64.time r) = Ok d).
Proof.
  intros (_ & _ & _ & _ & Hs & Hnd & Hidx)%b64_summarize_liquidations_Ok_inv.
  split; [|split; [done|]].
  - apply (Sorted_weaken (strict String.le)); [|done].
    intros a b. apply strict_String_le_ltb.
  - intros d. split.
    + intros (row & Hrow & <-).
      assert (B64.row_date row ∈ B64.row_date <$> rows) as Hin
        by (apply list_elem_of_fmap; eauto).
      apply Hidx in Hin as (r & Hr & Hconv).
      apply b64_elem_of_deduplicated, elem_of_concat in Hr as (file & Hfile & Hr). eauto.
    + intros (file & r & Hfile & Hr & Hconv).
      assert (d ∈ B64.row_date <$> rows) as Hin.
      { apply Hidx.
        assert (r ∈ concat files) as Hin by (apply elem_of_concat; eauto).
        pose proof (b64_drop_duplicates_from_covers [] (concat files) r Hin) as Hcov.
        rewrite app_nil_r in Hcov.
        apply existsb_exists in Hcov as (k & Hk & Hsame).
        exists k. split; [by apply elem_of_reverse, list_elem_of_In|].
        unfold B64.same_line in Hsame. rewrite !andb_true_iff in Hsame.
        destruct Hsame as [[[[Ht%bool_decide_eq_true _] _] _] _]. by rewrite <- Ht. }
      apply list_elem_of_fmap in Hin as (row & -> & Hrow). eauto.
Qed.

Lemma X20_binary64_rows_by_date_witness :
  let files := [[B64.liquidation 1704153600000 SELL (B64.of_Z 1) (B64.of_Z 200)];
                [B64.liquidation 1704067200000 BUY (B64.of_Z 2) (B64.of_Z 100);
                 B64.liquidation 1704240000000 BUY (B64.of_Z 1) (B64.of_Z 300)]] in
  let rows := [B64.table_row "2024-01-01" (B64.of_Z 200) B64.zero (B64.of_Z 100);
               B64.table_row "2024-01-02" B64.zero (B64.of_Z 200) (B64.of_Z 200);
               B64.table_row "2024-01-03" (B64.of_Z 300) B64.zero (B64.of_Z 300)] in
  Sorted date_lt (B64.row_date <$> rows) ∧ NoDup (B64.row_date <$> rows) ∧
  ∀ d, (∃ row, row ∈ rows ∧ B64.row_date row = d) ↔
       (∃ file r, file ∈ files ∧ r ∈ file ∧
                  convert_timestamp_to_date (B64.time r) = Ok d).
Proof.
  intros files rows. apply (X20_binary64_rows_by_date files rows).
  vm_compute. reflexivity.
Defined.

(** X21.  In binary64 as well, no table is written for a corpus without
    files ([ValueError] of [pd.concat]), nor, when every line kept can be
    dated, for a corpus without BUY lines or without SELL lines
    ([KeyError] of the missing column). *)
Theorem X21_binary64_missing_side_raises files :
  B64.summarize_liquidations [] = Raise ValueError_no_objects ∧
  (files ≠ [] →
   (∀ r, r ∈ B64.deduplicated files →
         ∃ d, convert_timestamp_to_date (B64.time r) = Ok d) →
   (¬ B64.has_side files BUY →
    B64.summarize_liquidations files = Raise (KeyError "Average Buy Price")) ∧
   (B64.has_side files BUY → ¬ B64.has_side files SELL →
    B64.summarize_liquidations files = Raise (KeyError "Average Sell Price"))).
Proof.
  split; [done|]. intros Hne Hd. unfold B64.summarize_liquidations.
  rewrite decide_False by done. fold (B64.deduplicated files).
  destruct (b64_mapM_add_columns_total _ Hd) as [data Hdata]. rewrite Hdata. simpl.
  split.
  - intros Hno.
    destruct (B64.pivot_has_column (B64.groupby_agg data) BUY) eqn:Hb; [|done].
    destruct Hno. by apply (b64_pivot_has_column_inv files data).
  - intros Hbuy Hno.
    rewrite (b64_pivot_has_column_side files data Hdata BUY Hd Hbuy). simpl.
    destruct (B64.pivot_has_column (B64.groupby_agg data) SELL) eqn:Hs; [|done].
    destruct Hno. by apply (b64_pivot_has_column_inv files data).
Qed.

Lemma X21_binary64_missing_side_raises_witness :
  B64.summarize_liquidations
    [[B64.liquidation 1704067200000 SELL (B64.of_Z 1) (B64.of_Z 200)]]
  = Raise (KeyError "Average Buy Price") ∧
  B64.summarize_liquidations
    [[B64.liquidation 1704067200000 BUY (B64.of_Z 2) (B64.of_Z 100)]]
  = Raise (KeyError "Average Sell Price").
Proof.
  split.
  - apply (proj2 (X21_binary64_missing_side_raises
                    [[B64.liquidation 1704067200000 SELL (B64.of_Z 1) (B64.of_Z 200)]]));
      [done| |].
    + intros r [->|[]%elem_of_nil]%elem_of_cons. by exists "2024-01-01"%string.
    + intros (r & [->|[]%elem_of_nil]%elem_of_cons & Hs). discriminate Hs.
  - apply (proj2 (X21_binary64_missing_side_raises
                    [[B64.liquidation 1704067200000 BUY (B64.of_Z 2) (B64.of_Z 100)]]));
      [done| | |].
    + intros r [->|[]%elem_of_nil]%elem_of_cons. by exists "2024-01-01"%string.
    + exists (B64.liquidation 1704067200000 BUY (B64.of_Z 2) (B64.of_Z 100)).
      split; [left|done].
    + intros (r & [->|[]%elem_of_nil]%elem_of_cons & Hs). discriminate Hs.
Defined.

(** A side whose filled volume is 0 adds a 0 to the dividend of the price. *)
Lemma b64_zero_side v q :
  B64.is_zero (B64.fillna0 (Some v)) = true →
  B64.is_zero (B64.mul (B64.fillna0 (Some (B64.div v q))) (B64.fillna0 (Some v))) = true.
Proof.
  destruct v as [sv|sv| |sv mv ev]; try done; intros _.
  destruct q as [sq|sq| |sq mq eq]; destruct sv; try destruct sq; done.
Qed.

Lemma b64_zero_over_zero p1 p2 v1 v2 :
  B64.is_zero p1 = true → B64.is_zero p2 = true →
  B64.is_zero v1 = true → B64.is_zero v2 = true →
  B64.div (B64.add p1 p2) (B64.add v1 v2) = S754_nan.
Proof.
  destruct p1 as [[]| | |], p2 as [[]| | |], v1 as [[]| | |], v2 as [[]| | |]; done.
Qed.

(** X24.  In a written table, a line with 0 under [Shorts] and under
    [Longs] has NaN for price: the division [0 / 0] raises nothing and
    leaves no other mark. *)
Theorem X24_binary64_zero_volume_price files rows r :
  B64.summarize_liquidations files = Ok rows → r ∈ rows →
  B64.is_zero (B64.Shorts r) = true → B64.is_zero (B64.Longs r) = true →
  B64.price r = S754_nan.
Proof.
  intros (_ & _ & _ & Hrows & _)%b64_summarize_liquidations_Ok_inv Hr.
  rewrite Hrows in Hr. apply list_elem_of_fmap in Hr as (d & -> & _).
  unfold B64.day_row, B64.day_average_price; cbn [B64.Shorts B64.Longs B64.price].
  intros Hb Hs. apply b64_zero_over_zero; [by apply b64_zero_side..|done|done].
Qed.

Lemma X24_binary64_zero_volume_price_witness :
  B64.price (B64.table_row "2024-01-01" B64.zero B64.zero S754_nan) = S754_nan.
Proof.
  apply (X24_binary64_zero_volume_price
           [[B64.liquidation 1704067200000 BUY B64.zero (B64.of_Z 100);
             B64.liquidation 1704153600000 SELL (B64.of_Z 1) (B64.of_Z 200)]]
           [B64.table_row "2024-01-01" B64.zero B64.zero S754_nan;
            B64.table_row "2024-01-02" B64.zero (B64.of_Z 200) (B64.of_Z 200)]).
  - vm_compute. reflexivity.
  - left.
  - reflexivity.
  - reflexivity.
Defined.
